(** * orbit-predictor: Keplerian and J2 predictors

    A shallow embedding of
      - orbit_predictor/predictors/keplerian.py  (kepler, KeplerianPredictor)
      - orbit_predictor/predictors/numerical.py  (pkepler, J2Predictor,
        sun_sync_plane_constellation)

    Numbers.  Python floats and numpy float64 scalars are idealised as real
    numbers: rounding and overflow are not modelled.  What the source makes
    observable about partial operations is kept: Python's float division and
    math.sqrt raise, numpy's ufuncs raise FloatingPointError inside
    [np.errstate(invalid="raise")].

    Where the embedding ends.  A computation has three outcomes: it returns
    ([Ok]), it raises ([Raise]), or it leaves what the embedding describes
    ([Outside]).  The last one is no statement about the program: it marks
    an infinity produced by a numpy division by zero, a complex number
    produced by a negative float raised to a fractional power, and an
    anomaly conversion called with an eccentricity outside (-1, 1), where
    the functions of orbit_predictor.angles are not described.

    Dates.  A naive datetime is its number of microseconds since the start of
    day 0 of the proleptic calendar, a date is its day number.  The current
    date, which the Sun-synchronous constructor reads when no date is given,
    is an explicit argument. *)

From Stdlib Require Import Reals Lra Lia ZArith List String DecimalString.
Import ListNotations.

Open Scope bool_scope.
Open Scope R_scope.

(* ------------------------------------------------------------------------- *)
(** ** Exceptions and results *)

Inductive exn : Type :=
| ValueError (msg : string)
| ZeroDivisionError
| FloatingPointError
| NotImplementedError (msg : string)
| InvalidOrbitError (msg : string).

Inductive result (A : Type) : Type :=
| Ok (a : A)
| Raise (e : exn)
| Outside (what : string).

Arguments Ok {A} a.
Arguments Raise {A} e.
Arguments Outside {A} what.

Definition bind {A B : Type} (r : result A) (k : A -> result B) : result B :=
  match r with
  | Ok a => k a
  | Raise e => Raise e
  | Outside what => Outside what
  end.

Notation "x <- r ;; k" := (bind r (fun x => k))
  (at level 61, r at next level, right associativity).

(* ------------------------------------------------------------------------- *)
(** ** Arithmetic of the host language *)

Module Py.

(** [x / y] on Python floats. *)
Definition div (x y : R) : result R :=
  if Req_dec_T y 0 then Raise ZeroDivisionError
  else Ok (x / y).

(** [math.sqrt]. *)
Definition sqrt (x : R) : result R :=
  if Rlt_dec x 0 then Raise (ValueError "math domain error")
  else Ok (R_sqrt.sqrt x).

(** [x ** y] on Python floats, for a positive exponent that is not an
    integer (the source uses 7 / 2).  A negative base gives a complex
    number in Python 3, which the embedding does not follow. *)
Definition fpow (x y : R) : result R :=
  if Rlt_dec 0 x then Ok (Rpower x y)
  else if Req_dec_T x 0 then Ok 0
  else Outside "complex power".

(** [math.radians] and [math.degrees]. *)
Definition radians (x : R) : R := x * (PI / 180).
Definition degrees (x : R) : R := x * (180 / PI).

End Py.

(** numpy scalar operations under [np.errstate(invalid="raise")]: an invalid
    operation raises FloatingPointError; a division of a nonzero number by
    zero only warns and gives an infinity, which the embedding does not
    follow. *)
Module Np.

Definition arccos (x : R) : result R :=
  if Rle_dec (-1) x then
    if Rle_dec x 1 then Ok (acos x) else Raise FloatingPointError
  else Raise FloatingPointError.

Definition sqrt (x : R) : result R :=
  if Rle_dec 0 x then Ok (R_sqrt.sqrt x) else Raise FloatingPointError.

Definition div (x y : R) : result R :=
  if Req_dec_T y 0 then
    if Req_dec_T x 0 then Raise FloatingPointError
    else Outside "infinite quotient"
  else Ok (x / y).

(** [x ** y] on a float64 base, for a positive exponent that is not an
    integer (the source uses 2 / 7). *)
Definition power (x y : R) : result R :=
  if Rlt_dec 0 x then Ok (Rpower x y)
  else if Req_dec_T x 0 then Ok 0
  else Raise FloatingPointError.

(** [np.linspace(start, stop, num, endpoint=False)]. *)
Definition linspace (start stop : R) (num : Z) : result (list R) :=
  if (num <? 0)%Z then
    Raise (ValueError ("Number of samples, "
                       ++ NilZero.string_of_int (Z.to_int num)
                       ++ ", must be non-negative."))
  else
    Ok (map (fun i => INR i * ((stop - start) / IZR num) + start)
            (seq 0 (Z.to_nat num))).

End Np.

(* ------------------------------------------------------------------------- *)
(** ** Dates and datetimes *)

Module dt.

Record date : Type := Date { toordinal : Z }.

Record datetime : Type := Datetime { microseconds : Z }.

(** [dt.datetime(d.year, d.month, d.day, h, m, s, us)] for a date [d]: the
    date fields are those of a valid date, the time fields are checked in
    this order. *)
Definition datetime_new (d : date) (h m s us : Z) : result datetime :=
  if negb ((0 <=? h)%Z && (h <? 24)%Z) then
    Raise (ValueError "hour must be in 0..23")
  else if negb ((0 <=? m)%Z && (m <? 60)%Z) then
    Raise (ValueError "minute must be in 0..59")
  else if negb ((0 <=? s)%Z && (s <? 60)%Z) then
    Raise (ValueError "second must be in 0..59")
  else if negb ((0 <=? us)%Z && (us <? 1000000)%Z) then
    Raise (ValueError "microsecond must be in 0..999999")
  else
    Ok (Datetime
          ((((toordinal d * 24 + h) * 60 + m) * 60 + s) * 1000000 + us)).

(** [(a - b).total_seconds()]. *)
Definition total_seconds_between (a b : datetime) : R :=
  IZR (microseconds a - microseconds b) / 1000000.

End dt.

(* ------------------------------------------------------------------------- *)
(** ** Gravity constants (sgp4.earth_gravity.wgs84) *)

Module wgs84.
Definition mu : R := 398600.5.
Definition radiusearthkm : R := 6378.137.
Definition j2 : R := 0.00108262998905.
End wgs84.

Definition OMEGA : R := 2 * PI / (86400 * 365.2421897).
Definition MU_E : R := wgs84.mu.
Definition R_E_KM : R := wgs84.radiusearthkm.
Definition J2 : R := wgs84.j2.

(* ------------------------------------------------------------------------- *)
(** ** Collaborators

    Functions of the package that the two modules import:
    orbit_predictor.angles (ta_to_M, M_to_ta), orbit_predictor.keplerian
    (coe2rv) and orbit_predictor.utils (raan_from_ltan, float_to_hms).
    [ta_to_M ta ecc] and [M_to_ta M ecc] are the values the two conversions
    return for an eccentricity in (-1, 1); [float_to_hms] returns hour,
    minute, second and microsecond. *)

Definition vec3 : Type := (R * R * R)%type.

Class Collaborators : Type := {
  ta_to_M : R -> R -> R;
  M_to_ta : R -> R -> R;
  coe2rv : R -> R -> R -> R -> R -> R -> R -> vec3 * vec3;
  raan_from_ltan : dt.datetime -> R -> R;
  float_to_hms : R -> Z * Z * Z * Z
}.

(* ------------------------------------------------------------------------- *)
(** ** Predictor objects *)

Inductive klass : Type := KeplerianPredictor | J2Predictor.

Record predictor : Type := Predictor {
  class_of : klass;
  _sma : R;
  _ecc : R;
  _inc : R;
  _raan : R;
  _argp : R;
  _ta : R;
  _epoch : dt.datetime
}.

(** A method body: it may read and write the attributes of [self] and may
    raise; the object survives an exception. *)
Definition method (A : Type) : Type := predictor -> result A * predictor.

Definition mret {A : Type} (a : A) : method A := fun self => (Ok a, self).

Definition mbind {A B : Type} (m : method A) (k : A -> method B) : method B :=
  fun self =>
    match m self with
    | (Ok a, self') => k a self'
    | (Raise e, self') => (Raise e, self')
    | (Outside what, self') => (Outside what, self')
    end.

Definition getattr {A : Type} (f : predictor -> A) : method A :=
  fun self => (Ok (f self), self).

Definition setattr (upd : predictor -> predictor) : method unit :=
  fun self => (Ok tt, upd self).

Definition call {A : Type} (r : result A) : method A :=
  fun self => (r, self).

Notation "x <~ m ;; k" := (mbind m (fun x => k))
  (at level 61, m at next level, right associativity).

Section Predictors.

Context {C : Collaborators}.

(* ----------------------------------------------------------------------- *)
(** *** Calls into orbit_predictor.angles *)

(** A call of [ta_to_M] or [M_to_ta]: described for an eccentricity in
    (-1, 1) only. *)
Definition call_ta_to_M (ta ecc : R) : result R :=
  if Rlt_dec (-1) ecc then
    if Rlt_dec ecc 1 then Ok (ta_to_M ta ecc) else Outside "ta_to_M"
  else Outside "ta_to_M".

Definition call_M_to_ta (M ecc : R) : result R :=
  if Rlt_dec (-1) ecc then
    if Rlt_dec ecc 1 then Ok (M_to_ta M ecc) else Outside "M_to_ta"
  else Outside "M_to_ta".

(* ----------------------------------------------------------------------- *)
(** *** keplerian.py *)

Definition kepler (argp delta_t_sec ecc inc p raan sma ta : R)
  : result (vec3 * vec3) :=
  (* Initial mean anomaly *)
  M_0 <- call_ta_to_M ta ecc ;;
  (* Mean motion *)
  q <- Py.div wgs84.mu (sma ^ 3) ;;
  n <- Py.sqrt q ;;
  (* Propagation *)
  let M := M_0 + n * delta_t_sec in
  (* New true anomaly *)
  ta <- call_M_to_ta M ecc ;;
  (* Position and velocity vectors *)
  Ok (coe2rv MU_E p ecc inc raan argp ta).

(** [KeplerianPredictor.__init__], inherited by J2Predictor. *)
Definition __init__ (cls : klass) (sma ecc inc raan argp ta : R)
           (epoch : dt.datetime) : result predictor :=
  if Rle_dec 1 ecc then
    Raise (NotImplementedError
             "Parabolic and elliptic orbits are not implemented")
  else
    Ok (Predictor cls sma ecc inc raan argp ta epoch).

Definition KeplerianPredictor_propagate_eci (when_utc : dt.datetime)
  : method (vec3 * vec3) :=
  (* Orbit parameters *)
  sma <~ getattr _sma ;;
  ecc <~ getattr _ecc ;;
  let p := sma * (1 - ecc ^ 2) in
  inc_deg <~ getattr _inc ;;
  let inc := Py.radians inc_deg in
  raan_deg <~ getattr _raan ;;
  let raan := Py.radians raan_deg in
  argp_deg <~ getattr _argp ;;
  let argp := Py.radians argp_deg in
  ta_deg <~ getattr _ta ;;
  let ta := Py.radians ta_deg in
  epoch <~ getattr _epoch ;;
  let delta_t_sec := dt.total_seconds_between when_utc epoch in
  (* Propagate *)
  call (kepler argp delta_t_sec ecc inc p raan sma ta).

(* ----------------------------------------------------------------------- *)
(** *** numerical.py *)

(** Perturbed Kepler problem (only J2).  The [njit] decorator is taken as
    the identity. *)
Definition pkepler (argp delta_t_sec ecc inc p raan sma ta : R)
  : result (vec3 * vec3) :=
  (* Mean motion *)
  q <- Py.div MU_E (sma ^ 3) ;;
  n <- Py.sqrt q ;;
  (* Initial mean anomaly *)
  M_0 <- call_ta_to_M ta ecc ;;
  (* Update for perturbations *)
  c_raan <- Py.div (- (3 * n * R_E_KM ^ 2 * J2)) (2 * p ^ 2) ;;
  let delta_raan := c_raan * cos inc * delta_t_sec in
  let raan := raan + delta_raan in
  c_argp <- Py.div (3 * n * R_E_KM ^ 2 * J2) (4 * p ^ 2) ;;
  let delta_argp := c_argp * (4 - 5 * sin inc ^ 2) * delta_t_sec in
  let argp := argp + delta_argp in
  c_M <- Py.div (3 * n * R_E_KM ^ 2 * J2) (4 * p ^ 2) ;;
  root <- Py.sqrt (1 - ecc ^ 2) ;;
  let M0_dot := c_M * (2 - 3 * sin inc ^ 2) * root in
  let M_dot := n + M0_dot in
  (* Propagation *)
  let M := M_0 + M_dot * delta_t_sec in
  (* New true anomaly *)
  ta <- call_M_to_ta M ecc ;;
  (* Position and velocity vectors *)
  Ok (coe2rv MU_E p ecc inc raan argp ta).

(** [except FloatingPointError: raise InvalidOrbitError(...)]. *)
Definition except_FloatingPointError {A : Type} (r : result A) : result A :=
  match r with
  | Raise FloatingPointError =>
      Raise (InvalidOrbitError
               "Cannot find Sun-synchronous orbit with given parameters")
  | _ => r
  end.

(** The body of the [try] block of [sun_synchronous]: the values of
    [sma], [ecc] and [inc_deg] when it is left. *)
Definition sun_synchronous_solve (alt_km ecc inc_deg : option R)
  : result (R * R * R) :=
  match alt_km, ecc, inc_deg with
  | Some alt_km, Some ecc, _ =>
      (* Normal case, solve for inclination *)
      let sma := R_E_KM + alt_km in
      s72 <- Py.fpow sma (7 / 2) ;;
      root_mu <- Np.sqrt MU_E ;;
      x <- Np.div (-2 * s72 * OMEGA * (1 - ecc ^ 2) ^ 2)
                  (3 * R_E_KM ^ 2 * J2 * root_mu) ;;
      a <- Np.arccos x ;;
      Ok (sma, ecc, Py.degrees a)
  | Some alt_km, None, Some inc_deg =>
      (* Not so normal case, solve for eccentricity *)
      let sma := R_E_KM + alt_km in
      root_mu <- Np.sqrt MU_E ;;
      s72 <- Py.fpow sma (7 / 2) ;;
      x <- Np.div (-3 * R_E_KM ^ 2 * J2 * root_mu
                   * cos (Py.radians inc_deg))
                  (2 * OMEGA * s72) ;;
      inner <- Np.sqrt x ;;
      ecc <- Np.sqrt (1 - inner) ;;
      Ok (sma, ecc, inc_deg)
  | None, Some ecc, Some inc_deg =>
      (* Rare case, solve for altitude *)
      root_mu <- Np.sqrt MU_E ;;
      b <- Np.div (- cos (Py.radians inc_deg)
                   * (3 * R_E_KM ^ 2 * J2 * root_mu))
                  (2 * OMEGA * (1 - ecc ^ 2) ^ 2) ;;
      sma <- Np.power b (2 / 7) ;;
      Ok (sma, ecc, inc_deg)
  | _, _, _ =>
      Raise (ValueError
        "Exactly two of altitude, eccentricity and inclination must be given")
  end.

(** [J2Predictor.sun_synchronous].  [today] is what
    [dt.datetime.today().date()] returns when the call is made; it is read
    only when [date] is None. *)
Definition sun_synchronous (alt_km ecc inc_deg : option R) (ltan_h : R)
           (date : option dt.date) (ta_deg : R) (today : dt.date)
  : result predictor :=
  let date := match date with None => today | Some d => d end in
  solved <- except_FloatingPointError
              (sun_synchronous_solve alt_km ecc inc_deg) ;;
  let '(sma, ecc, inc_deg) := solved in
  let '(h, m, s, us) := float_to_hms ltan_h in
  epoch <- dt.datetime_new date h m s us ;;
  let raan := raan_from_ltan epoch ltan_h in
  __init__ J2Predictor sma ecc inc_deg raan 0 ta_deg epoch.

Definition J2Predictor_propagate_eci (when_utc : dt.datetime)
  : method (vec3 * vec3) :=
  (* Orbit parameters *)
  sma <~ getattr _sma ;;
  ecc <~ getattr _ecc ;;
  let p := sma * (1 - ecc ^ 2) in
  inc_deg <~ getattr _inc ;;
  let inc := Py.radians inc_deg in
  raan_deg <~ getattr _raan ;;
  let raan := Py.radians raan_deg in
  argp_deg <~ getattr _argp ;;
  let argp := Py.radians argp_deg in
  ta_deg <~ getattr _ta ;;
  let ta := Py.radians ta_deg in
  epoch <~ getattr _epoch ;;
  let delta_t_sec := dt.total_seconds_between when_utc epoch in
  (* Propagate *)
  call (pkepler argp delta_t_sec ecc inc p raan sma ta).

(** Method lookup: the class of the object selects the body. *)
Definition _propagate_eci (when_utc : dt.datetime) : method (vec3 * vec3) :=
  fun self =>
    match class_of self with
    | KeplerianPredictor => KeplerianPredictor_propagate_eci when_utc self
    | J2Predictor => J2Predictor_propagate_eci when_utc self
    end.

(** How a generator ended: its body ran to the end, it raised, or it left
    what the embedding describes. *)
Inductive ending : Type :=
| Exhausted
| Raised (e : exn)
| Unknown (what : string).

(** What a generator has produced: the values it yielded, and how it
    ended. *)
Definition yielded (A : Type) : Type := (list A * ending)%type.

Fixpoint yield_each {A : Type} (body : nat -> R -> result A) (i : nat)
         (items : list R) : yielded A :=
  match items with
  | [] => ([], Exhausted)
  | x :: rest =>
      match body i x with
      | Raise e => ([], Raised e)
      | Outside what => ([], Unknown what)
      | Ok a => let '(l, e) := yield_each body (S i) rest in (a :: l, e)
      end
  end.

(** [clock i] is the current date when the generator is resumed for the
    [i]-th time. *)
Definition sun_sync_plane_constellation (num_satellites : Z)
           (alt_km ecc inc_deg : option R) (ltan_h : R)
           (date : option dt.date) (clock : nat -> dt.date)
  : yielded predictor :=
  match Np.linspace 0 360 num_satellites with
  | Raise e => ([], Raised e)
  | Outside what => ([], Unknown what)
  | Ok ta_degs =>
      yield_each
        (fun i ta_deg =>
           sun_synchronous alt_km ecc inc_deg ltan_h date ta_deg (clock i))
        0%nat ta_degs
  end.

End Predictors.

(* ------------------------------------------------------------------------- *)
(** ** The formulas of the specification *)

Module Spec.

(** n = sqrt(mu / sma^3) and p = sma (1 - ecc^2). *)
Definition mean_motion (sma : R) : R := sqrt (MU_E / sma ^ 3).
Definition semi_latus_rectum (sma ecc : R) : R := sma * (1 - ecc ^ 2).

(** Secular J2 rates. *)
Definition raan_rate (n p inc : R) : R :=
  - (3 * n * R_E_KM ^ 2 * J2) / (2 * p ^ 2) * cos inc.

Definition argp_rate (n p inc : R) : R :=
  (3 * n * R_E_KM ^ 2 * J2) / (4 * p ^ 2) * (4 - 5 * sin inc ^ 2).

Definition M0_dot (n p inc ecc : R) : R :=
  (3 * n * R_E_KM ^ 2 * J2) / (4 * p ^ 2) * (2 - 3 * sin inc ^ 2)
  * sqrt (1 - ecc ^ 2).

(** Nodal regression rate of the orbit with elements (sma, ecc, inc). *)
Definition nodal_regression_rate (sma ecc inc : R) : R :=
  raan_rate (mean_motion sma) (semi_latus_rectum sma ecc) inc.

End Spec.

(* ------------------------------------------------------------------------- *)
(** ** The exceptions the two modules raise *)

Definition not_implemented : exn :=
  NotImplementedError "Parabolic and elliptic orbits are not implemented".

Definition exactly_two_required : exn :=
  ValueError
    "Exactly two of altitude, eccentricity and inclination must be given".

Definition invalid_orbit : exn :=
  InvalidOrbitError "Cannot find Sun-synchronous orbit with given parameters".

(* ------------------------------------------------------------------------- *)
(** ** The closed forms of the Sun-synchronous constructor *)

(** The arguments of the closed forms, for a positive semi-major axis. *)
Definition arccos_argument (sma ecc : R) : R :=
  (-2 * Rpower sma (7 / 2) * OMEGA * (1 - ecc ^ 2) ^ 2)
  / (3 * R_E_KM ^ 2 * J2 * sqrt MU_E).

Definition sqrt_argument (sma inc_deg : R) : R :=
  (-3 * R_E_KM ^ 2 * J2 * sqrt MU_E * cos (Py.radians inc_deg))
  / (2 * OMEGA * Rpower sma (7 / 2)).

Definition power_argument (ecc inc_deg : R) : R :=
  (- cos (Py.radians inc_deg) * (3 * R_E_KM ^ 2 * J2 * sqrt MU_E))
  / (2 * OMEGA * (1 - ecc ^ 2) ^ 2).

(** The equation in the form the three closed forms solve. *)
Definition sun_synchronism (sma ecc inc : R) : Prop :=
  2 * OMEGA * (1 - ecc ^ 2) ^ 2 * Rpower sma (7 / 2)
  = - (3 * R_E_KM ^ 2 * J2 * sqrt MU_E) * cos inc.

(** The argument of the arccos (altitude and eccentricity given) or of one
    of the two square roots (altitude and inclination given) is outside the
    domain of the function.  The semi-major axis is positive, so that the
    argument is a real number. *)
Definition domain_violation (alt_km ecc inc_deg : option R) : Prop :=
  match alt_km, ecc, inc_deg with
  | Some alt_km, Some ecc, _ =>
      let x := arccos_argument (R_E_KM + alt_km) ecc in
      0 < R_E_KM + alt_km /\ (x < -1 \/ 1 < x)
  | Some alt_km, None, Some inc_deg =>
      let x := sqrt_argument (R_E_KM + alt_km) inc_deg in
      0 < R_E_KM + alt_km /\ (x < 0 \/ 1 - sqrt x < 0)
  | _, _, _ => False
  end.

(* ------------------------------------------------------------------------- *)
(** ** Predictors of one plane *)

(** The predictor [pr] with another true anomaly. *)
Definition with_ta (pr : predictor) (ta : R) : predictor :=
  Predictor (class_of pr) (_sma pr) (_ecc pr) (_inc pr) (_raan pr) (_argp pr)
            ta (_epoch pr).

(** The predictor [pr] with its reference epoch moved by [k] microseconds,
    and an instant moved by [k] microseconds. *)
Definition later (k : Z) (t : dt.datetime) : dt.datetime :=
  dt.Datetime (dt.microseconds t + k).

Definition with_epoch_later (k : Z) (pr : predictor) : predictor :=
  Predictor (class_of pr) (_sma pr) (_ecc pr) (_inc pr) (_raan pr) (_argp pr)
            (_ta pr) (later k (_epoch pr)).

(** The hour, minute, second and microsecond are those of a time of day. *)
Definition time_of_day_ok (hms : Z * Z * Z * Z) : bool :=
  let '(h, m, s, us) := hms in
  ((0 <=? h)%Z && (h <? 24)%Z) && ((0 <=? m)%Z && (m <? 60)%Z)
  && ((0 <=? s)%Z && (s <? 60)%Z) && ((0 <=? us)%Z && (us <? 1000000)%Z).

(** The date a call works with. *)
Definition date_used (date : option dt.date) (today : dt.date) : dt.date :=
  match date with None => today | Some d => d end.

(* ------------------------------------------------------------------------- *)
(** ** An explicit gravity model *)

(** The design the specification asks for: the gravity constants are the
    fields of a value passed to every propagation and solve function. *)
Module Explicit.

Record GravityModel : Type := {
  gm_mu : R;
  gm_radius : R;
  gm_j2 : R
}.

Definition WGS84 : GravityModel :=
  {| gm_mu := wgs84.mu; gm_radius := wgs84.radiusearthkm; gm_j2 := wgs84.j2 |}.

(** sgp4.earth_gravity.wgs72. *)
Definition WGS72 : GravityModel :=
  {| gm_mu := 398600.8; gm_radius := 6378.135; gm_j2 := 0.001082616 |}.

Section WithGravityModel.

Context {C : Collaborators}.
Variable g : GravityModel.

Definition kepler (argp delta_t_sec ecc inc p raan sma ta : R)
  : result (vec3 * vec3) :=
  M_0 <- call_ta_to_M ta ecc ;;
  q <- Py.div (gm_mu g) (sma ^ 3) ;;
  n <- Py.sqrt q ;;
  let M := M_0 + n * delta_t_sec in
  ta <- call_M_to_ta M ecc ;;
  Ok (coe2rv (gm_mu g) p ecc inc raan argp ta).

Definition pkepler (argp delta_t_sec ecc inc p raan sma ta : R)
  : result (vec3 * vec3) :=
  q <- Py.div (gm_mu g) (sma ^ 3) ;;
  n <- Py.sqrt q ;;
  M_0 <- call_ta_to_M ta ecc ;;
  c_raan <- Py.div (- (3 * n * gm_radius g ^ 2 * gm_j2 g)) (2 * p ^ 2) ;;
  let delta_raan := c_raan * cos inc * delta_t_sec in
  let raan := raan + delta_raan in
  c_argp <- Py.div (3 * n * gm_radius g ^ 2 * gm_j2 g) (4 * p ^ 2) ;;
  let delta_argp := c_argp * (4 - 5 * sin inc ^ 2) * delta_t_sec in
  let argp := argp + delta_argp in
  c_M <- Py.div (3 * n * gm_radius g ^ 2 * gm_j2 g) (4 * p ^ 2) ;;
  root <- Py.sqrt (1 - ecc ^ 2) ;;
  let M0_dot := c_M * (2 - 3 * sin inc ^ 2) * root in
  let M_dot := n + M0_dot in
  let M := M_0 + M_dot * delta_t_sec in
  ta <- call_M_to_ta M ecc ;;
  Ok (coe2rv (gm_mu g) p ecc inc raan argp ta).

Definition sun_synchronous_solve (alt_km ecc inc_deg : option R)
  : result (R * R * R) :=
  match alt_km, ecc, inc_deg with
  | Some alt_km, Some ecc, _ =>
      let sma := gm_radius g + alt_km in
      s72 <- Py.fpow sma (7 / 2) ;;
      root_mu <- Np.sqrt (gm_mu g) ;;
      x <- Np.div (-2 * s72 * OMEGA * (1 - ecc ^ 2) ^ 2)
                  (3 * gm_radius g ^ 2 * gm_j2 g * root_mu) ;;
      a <- Np.arccos x ;;
      Ok (sma, ecc, Py.degrees a)
  | Some alt_km, None, Some inc_deg =>
      let sma := gm_radius g + alt_km in
      root_mu <- Np.sqrt (gm_mu g) ;;
      s72 <- Py.fpow sma (7 / 2) ;;
      x <- Np.div (-3 * gm_radius g ^ 2 * gm_j2 g * root_mu
                   * cos (Py.radians inc_deg))
                  (2 * OMEGA * s72) ;;
      inner <- Np.sqrt x ;;
      ecc <- Np.sqrt (1 - inner) ;;
      Ok (sma, ecc, inc_deg)
  | None, Some ecc, Some inc_deg =>
      root_mu <- Np.sqrt (gm_mu g) ;;
      b <- Np.div (- cos (Py.radians inc_deg)
                   * (3 * gm_radius g ^ 2 * gm_j2 g * root_mu))
                  (2 * OMEGA * (1 - ecc ^ 2) ^ 2) ;;
      sma <- Np.power b (2 / 7) ;;
      Ok (sma, ecc, inc_deg)
  | _, _, _ =>
      Raise (ValueError
        "Exactly two of altitude, eccentricity and inclination must be given")
  end.

End WithGravityModel.

End Explicit.

(* ------------------------------------------------------------------------- *)
(** ** Concrete inputs *)

(** Collaborators for concrete runs: the anomaly conversions of a circular
    orbit, a state conversion that returns the six elements it receives, a
    zero RAAN, and noon for every local time. *)
Definition tracing : Collaborators := {|
  ta_to_M := fun ta _ => ta;
  M_to_ta := fun M _ => M;
  coe2rv := fun _ p ecc inc raan argp ta => ((p, ecc, inc), (raan, argp, ta));
  raan_from_ltan := fun _ _ => 0;
  float_to_hms := fun _ => (12, 0, 0, 0)%Z
|}.

(** The same collaborators, with every local time taken to 24:00:00. *)
Definition tracing_24h : Collaborators := {|
  ta_to_M := fun ta _ => ta;
  M_to_ta := fun M _ => M;
  coe2rv := fun _ p ecc inc raan argp ta => ((p, ecc, inc), (raan, argp, ta));
  raan_from_ltan := fun _ _ => 0;
  float_to_hms := fun _ => (24, 0, 0, 0)%Z
|}.

(** 2020-01-01, and noon of a day. *)
Definition new_year_2020 : dt.date := dt.Date 737425.

Definition noon (d : dt.date) : dt.datetime :=
  dt.Datetime
    (((((dt.toordinal d * 24 + 12) * 60 + 0) * 60 + 0) * 1000000 + 0)%Z).

(** Inclination of the Sun-synchronous circular orbit at 600 km, degrees. *)
Definition leo_600_inc_deg : R :=
  Py.degrees (acos (arccos_argument (R_E_KM + 600) 0)).

(** The Sun-synchronous circular orbit at 600 km, true anomaly 0, epoch
    noon of 2020-01-01. *)
Definition leo_600 : predictor :=
  Predictor J2Predictor (R_E_KM + 600) 0 leo_600_inc_deg 0 0 0
            (noon new_year_2020).

(** The scenario of the specification: sma = 7000 km, ecc = 0, inc = 45
    degrees, raan = argp = ta = 0. *)
Definition sat_7000 : predictor :=
  Predictor KeplerianPredictor 7000 0 45 0 0 0 (noon new_year_2020).

(** The same elements with the semi-major axis 0, which the constructor
    accepts. *)
Definition sat_0 : predictor :=
  Predictor KeplerianPredictor 0 0 45 0 0 0 (noon new_year_2020).

Definition j2_sat_0 : predictor :=
  Predictor J2Predictor 0 0 45 0 0 0 (noon new_year_2020).

Definition one_minute_past_noon : dt.datetime :=
  dt.Datetime (dt.microseconds (noon new_year_2020) + 60000000).

(* ------------------------------------------------------------------------- *)
(** ** Basic facts *)

Lemma MU_E_pos : 0 < MU_E.
Proof. unfold MU_E, wgs84.mu. lra. Qed.

Lemma R_E_KM_pos : 0 < R_E_KM.
Proof. unfold R_E_KM, wgs84.radiusearthkm. lra. Qed.

Lemma J2_pos : 0 < J2.
Proof. unfold J2, wgs84.j2. lra. Qed.

Lemma OMEGA_pos : 0 < OMEGA.
Proof.
  unfold OMEGA. apply Rdiv_lt_0_compat; [|lra].
  generalize PI_RGT_0. lra.
Qed.

Lemma sqrt_MU_E_pos : 0 < sqrt MU_E.
Proof. apply sqrt_lt_R0, MU_E_pos. Qed.

Lemma Py_div_ok (x y : R) : y <> 0 -> Py.div x y = Ok (x / y).
Proof. intros H. unfold Py.div. destruct (Req_dec_T y 0); [contradiction|reflexivity]. Qed.

Lemma Py_sqrt_ok (x : R) : 0 <= x -> Py.sqrt x = Ok (sqrt x).
Proof. intros H. unfold Py.sqrt. destruct (Rlt_dec x 0); [lra|reflexivity]. Qed.

Lemma Py_fpow_pos (x y : R) : 0 < x -> Py.fpow x y = Ok (Rpower x y).
Proof. intros H. unfold Py.fpow. destruct (Rlt_dec 0 x); [reflexivity|contradiction]. Qed.

Lemma Np_sqrt_ok (x : R) : 0 <= x -> Np.sqrt x = Ok (sqrt x).
Proof. intros H. unfold Np.sqrt. destruct (Rle_dec 0 x); [reflexivity|contradiction]. Qed.

Lemma Np_sqrt_neg (x : R) : x < 0 -> Np.sqrt x = Raise FloatingPointError.
Proof. intros H. unfold Np.sqrt. destruct (Rle_dec 0 x); [lra|reflexivity]. Qed.

Lemma Np_div_ok (x y : R) : y <> 0 -> Np.div x y = Ok (x / y).
Proof. intros H. unfold Np.div. destruct (Req_dec_T y 0); [contradiction|reflexivity]. Qed.

Lemma Np_arccos_ok (x : R) : -1 <= x <= 1 -> Np.arccos x = Ok (acos x).
Proof.
  intros [H1 H2]. unfold Np.arccos.
  destruct (Rle_dec (-1) x); [|contradiction].
  destruct (Rle_dec x 1); [reflexivity|contradiction].
Qed.

Lemma Np_arccos_out (x : R) :
  x < -1 \/ 1 < x -> Np.arccos x = Raise FloatingPointError.
Proof.
  intros H. unfold Np.arccos.
  destruct (Rle_dec (-1) x); [|reflexivity].
  destruct (Rle_dec x 1); [lra|reflexivity].
Qed.

Lemma Np_power_pos (x y : R) : 0 < x -> Np.power x y = Ok (Rpower x y).
Proof. intros H. unfold Np.power. destruct (Rlt_dec 0 x); [reflexivity|contradiction]. Qed.

Lemma Np_sqrt_MU_E : Np.sqrt MU_E = Ok (sqrt MU_E).
Proof. apply Np_sqrt_ok. generalize MU_E_pos. lra. Qed.

Lemma radians_degrees (x : R) : Py.radians (Py.degrees x) = x.
Proof.
  unfold Py.radians, Py.degrees. generalize PI_RGT_0. intros HPI.
  field. lra.
Qed.

(** sma ** (7 / 2) for a positive semi-major axis. *)
Lemma Rpower_7_2 (x : R) : 0 < x -> Rpower x (7 / 2) = x ^ 3 * sqrt x.
Proof.
  intros Hx.
  replace (7 / 2) with (INR 3 + / 2) by (simpl; lra).
  rewrite Rpower_plus, Rpower_pow, Rpower_sqrt by assumption.
  reflexivity.
Qed.

Lemma Rpower_pos (x y : R) : 0 < Rpower x y.
Proof. unfold Rpower. apply exp_pos. Qed.

(** The power 2/7 undoes the power 7/2. *)
Lemma Rpower_2_7_7_2 (b : R) : 0 < b -> Rpower (Rpower b (2 / 7)) (7 / 2) = b.
Proof.
  intros Hb. rewrite Rpower_mult.
  replace (2 / 7 * (7 / 2)) with 1 by field.
  apply Rpower_1, Hb.
Qed.

(** Mean motion of a positive semi-major axis, in terms of sma^(7/2). *)
Lemma mean_motion_pos_sma (sma : R) :
  0 < sma -> Spec.mean_motion sma * Rpower sma (7 / 2) = sqrt MU_E * sma ^ 2.
Proof.
  intros Hs. unfold Spec.mean_motion.
  assert (H3 : 0 < sma ^ 3) by (apply pow_lt; assumption).
  rewrite sqrt_div_alt by assumption.
  rewrite Rpower_7_2 by assumption.
  assert (Hq : sqrt (sma ^ 3) = sma * sqrt sma).
  { replace (sma ^ 3) with (sma ^ 2 * sma) by ring.
    rewrite sqrt_mult_alt by (apply pow2_ge_0).
    rewrite sqrt_pow2 by lra. reflexivity. }
  rewrite Hq.
  assert (Hr : 0 < sqrt sma) by (apply sqrt_lt_R0; assumption).
  field. split; lra.
Qed.

(* ------------------------------------------------------------------------- *)
(** ** Propagation *)

Section Propagation.

Context {C : Collaborators}.

(** The elapsed time is signed: swapping the two instants negates it. *)
Lemma total_seconds_between_swap (a b : dt.datetime) :
  dt.total_seconds_between a b = - dt.total_seconds_between b a.
Proof.
  unfold dt.total_seconds_between.
  replace (dt.microseconds a - dt.microseconds b)%Z
    with (- (dt.microseconds b - dt.microseconds a))%Z by lia.
  rewrite opp_IZR. lra.
Qed.

(** A target before the reference epoch gives a negative elapsed time. *)
Lemma total_seconds_between_earlier (a b : dt.datetime) :
  (dt.microseconds a < dt.microseconds b)%Z ->
  dt.total_seconds_between a b < 0.
Proof.
  intros H. unfold dt.total_seconds_between.
  assert (IZR (dt.microseconds a - dt.microseconds b) < 0)
    by (apply (IZR_lt _ 0); lia).
  lra.
Qed.

(** The anomaly conversions are described on the elliptical domain. *)
Lemma call_ta_to_M_ok (ta ecc : R) :
  -1 < ecc < 1 -> call_ta_to_M ta ecc = Ok (ta_to_M ta ecc).
Proof.
  intros [H1 H2]. unfold call_ta_to_M.
  destruct (Rlt_dec (-1) ecc); [|contradiction].
  destruct (Rlt_dec ecc 1); [reflexivity|contradiction].
Qed.

Lemma call_M_to_ta_ok (M ecc : R) :
  -1 < ecc < 1 -> call_M_to_ta M ecc = Ok (M_to_ta M ecc).
Proof.
  intros [H1 H2]. unfold call_M_to_ta.
  destruct (Rlt_dec (-1) ecc); [|contradiction].
  destruct (Rlt_dec ecc 1); [reflexivity|contradiction].
Qed.

(** The division and the square root of [kepler] succeed for sma > 0. *)
Lemma kepler_ok (argp delta_t_sec ecc inc p raan sma ta : R) :
  0 < sma -> -1 < ecc < 1 ->
  kepler argp delta_t_sec ecc inc p raan sma ta
  = Ok (coe2rv MU_E p ecc inc raan argp
          (M_to_ta (ta_to_M ta ecc + Spec.mean_motion sma * delta_t_sec)
                   ecc)).
Proof.
  intros Hs He. unfold kepler.
  assert (H3 : 0 < sma ^ 3) by (apply pow_lt; assumption).
  rewrite call_ta_to_M_ok by assumption. cbn [bind].
  rewrite Py_div_ok by lra. cbn [bind].
  rewrite Py_sqrt_ok
    by (apply Rlt_le, Rdiv_lt_0_compat; [apply MU_E_pos | assumption]).
  cbn [bind]. rewrite call_M_to_ta_ok by assumption. reflexivity.
Qed.

(** The three divisions and the two square roots of [pkepler] succeed on
    an elliptical orbit, and what reaches the state conversion is the
    secular drift of the specification. *)
Lemma pkepler_ok (argp delta_t_sec ecc inc raan sma ta : R) :
  0 < sma -> -1 < ecc < 1 ->
  let n := Spec.mean_motion sma in
  let p := Spec.semi_latus_rectum sma ecc in
  pkepler argp delta_t_sec ecc inc p raan sma ta
  = Ok (coe2rv MU_E p ecc inc
          (raan + Spec.raan_rate n p inc * delta_t_sec)
          (argp + Spec.argp_rate n p inc * delta_t_sec)
          (M_to_ta (ta_to_M ta ecc
                    + (n + Spec.M0_dot n p inc ecc) * delta_t_sec) ecc)).
Proof.
  intros Hs He n p. unfold pkepler.
  assert (H3 : 0 < sma ^ 3) by (apply pow_lt; assumption).
  assert (He2 : 0 < 1 - ecc ^ 2) by nra.
  assert (Hp : 0 < p) by (unfold p, Spec.semi_latus_rectum; nra).
  assert (Hp2 : 0 < p ^ 2) by (apply pow_lt; assumption).
  rewrite Py_div_ok by lra. cbn [bind].
  rewrite Py_sqrt_ok
    by (apply Rlt_le, Rdiv_lt_0_compat; [apply MU_E_pos | assumption]).
  cbn [bind]. rewrite call_ta_to_M_ok by assumption. cbn [bind].
  rewrite !Py_div_ok by lra. cbn [bind].
  rewrite Py_sqrt_ok by lra. cbn [bind].
  rewrite call_M_to_ta_ok by assumption. cbn [bind].
  fold (Spec.mean_motion sma). fold n.
  unfold Spec.raan_rate, Spec.argp_rate, Spec.M0_dot.
  reflexivity.
Qed.

(** C4.  For every Keplerian predictor on an elliptical orbit (sma > 0,
    -1 < ecc < 1) and every target epoch, earlier or later than the
    reference epoch,
    propagation succeeds and returns the state conversion of the elements
    (p, ecc, inc, raan, argp) as stored, with the true anomaly recovered
    from M = M_0 + n * delta_t, where n = sqrt(mu / sma^3), M_0 is the mean
    anomaly of the stored true anomaly and delta_t is the signed number of
    seconds from the reference epoch to the target. *)
Theorem keplerian_propagate_two_body (self : predictor)
        (when_utc : dt.datetime) :
  class_of self = KeplerianPredictor ->
  0 < _sma self ->
  -1 < _ecc self < 1 ->
  let n := Spec.mean_motion (_sma self) in
  let delta_t := dt.total_seconds_between when_utc (_epoch self) in
  let M_0 := ta_to_M (Py.radians (_ta self)) (_ecc self) in
  fst (_propagate_eci when_utc self)
  = Ok (coe2rv MU_E (Spec.semi_latus_rectum (_sma self) (_ecc self))
          (_ecc self) (Py.radians (_inc self)) (Py.radians (_raan self))
          (Py.radians (_argp self))
          (M_to_ta (M_0 + n * delta_t) (_ecc self))).
Proof.
  intros Hk Hs He n delta_t M_0.
  unfold _propagate_eci. rewrite Hk.
  unfold KeplerianPredictor_propagate_eci, mbind, getattr, call.
  cbn [fst]. rewrite kepler_ok by assumption. reflexivity.
Qed.

(** C1.  For every J2 predictor on an elliptical orbit and every target
    epoch, propagation succeeds and hands to the state conversion sma (as
    p), ecc and inc unchanged, the RAAN advanced by
    -(3 n R_E^2 J2)/(2 p^2) cos(inc) delta_t, the argument of perigee
    advanced by (3 n R_E^2 J2)/(4 p^2) (4 - 5 sin^2(inc)) delta_t, and the
    true anomaly recovered from M_0 + (n + M0_dot) delta_t with
    M0_dot = (3 n R_E^2 J2)/(4 p^2) (2 - 3 sin^2(inc)) sqrt(1 - ecc^2),
    n = sqrt(mu / sma^3) and p = sma (1 - ecc^2). *)
Theorem j2_propagate_secular_drift (self : predictor)
        (when_utc : dt.datetime) :
  class_of self = J2Predictor ->
  0 < _sma self ->
  -1 < _ecc self < 1 ->
  let n := Spec.mean_motion (_sma self) in
  let p := Spec.semi_latus_rectum (_sma self) (_ecc self) in
  let inc := Py.radians (_inc self) in
  let delta_t := dt.total_seconds_between when_utc (_epoch self) in
  let M_0 := ta_to_M (Py.radians (_ta self)) (_ecc self) in
  fst (_propagate_eci when_utc self)
  = Ok (coe2rv MU_E p (_ecc self) inc
          (Py.radians (_raan self) + Spec.raan_rate n p inc * delta_t)
          (Py.radians (_argp self) + Spec.argp_rate n p inc * delta_t)
          (M_to_ta (M_0 + (n + Spec.M0_dot n p inc (_ecc self)) * delta_t)
                   (_ecc self))).
Proof.
  intros Hk Hs He n p inc delta_t M_0.
  unfold _propagate_eci. rewrite Hk.
  unfold J2Predictor_propagate_eci, mbind, getattr, call.
  cbn [fst].
  exact (pkepler_ok _ _ _ _ _ _ _ Hs He).
Qed.

(** Reading an attribute leaves the object as it is. *)
Lemma getattr_frame {A B : Type} (f : predictor -> A) (k : A -> method B)
      (self : predictor) :
  (forall a s, snd (k a s) = s) ->
  snd (mbind (getattr f) k self) = self.
Proof. intros Hk. unfold mbind, getattr. apply Hk. Qed.

Lemma call_frame {A : Type} (r : result A) (self : predictor) :
  snd (call r self) = self.
Proof. reflexivity. Qed.

(** C9.  For every predictor, Keplerian or J2, and every target epoch,
    propagation leaves the object as it was: sma, ecc, inc, raan, argp, ta
    and epoch are the ones it was constructed with, whether the call
    returns a state vector or raises. *)
Theorem propagate_eci_frame (self : predictor) (when_utc : dt.datetime) :
  snd (_propagate_eci when_utc self) = self.
Proof.
  unfold _propagate_eci.
  destruct (class_of self);
    [unfold KeplerianPredictor_propagate_eci
    |unfold J2Predictor_propagate_eci];
    repeat (apply getattr_frame; intros);
    apply call_frame.
Qed.

End Propagation.

(* ------------------------------------------------------------------------- *)
(** ** Construction *)

(** The two outcomes of [__init__]. *)
Lemma init_raises (cls : klass) (sma ecc inc raan argp ta : R)
      (epoch : dt.datetime) :
  1 <= ecc ->
  __init__ cls sma ecc inc raan argp ta epoch = Raise not_implemented.
Proof.
  intros H. unfold __init__. destruct (Rle_dec 1 ecc); [reflexivity|contradiction].
Qed.

Lemma init_returns (cls : klass) (sma ecc inc raan argp ta : R)
      (epoch : dt.datetime) :
  ecc < 1 ->
  __init__ cls sma ecc inc raan argp ta epoch
  = Ok (Predictor cls sma ecc inc raan argp ta epoch).
Proof.
  intros H. unfold __init__. destruct (Rle_dec 1 ecc); [lra|reflexivity].
Qed.

Lemma init_inv (cls : klass) (sma ecc inc raan argp ta : R)
      (epoch : dt.datetime) (pr : predictor) :
  __init__ cls sma ecc inc raan argp ta epoch = Ok pr ->
  ecc < 1 /\ pr = Predictor cls sma ecc inc raan argp ta epoch.
Proof.
  unfold __init__. destruct (Rle_dec 1 ecc); intros H; [discriminate|].
  injection H as <-. split; [lra|reflexivity].
Qed.

(** C6 (as amended).  Construction of a predictor of either class raises
    NotImplementedError exactly when ecc >= 1, and otherwise returns a
    predictor that stores the seven arguments as given; sma and the lower
    bound of ecc are not examined. *)
Theorem init_rejects_exactly_ecc_ge_1 (cls : klass)
        (sma ecc inc raan argp ta : R) (epoch : dt.datetime) :
  (__init__ cls sma ecc inc raan argp ta epoch = Raise not_implemented
   <-> 1 <= ecc)
  /\ (__init__ cls sma ecc inc raan argp ta epoch
      = Ok (Predictor cls sma ecc inc raan argp ta epoch)
      <-> ecc < 1).
Proof.
  split; split.
  - unfold __init__. destruct (Rle_dec 1 ecc); [tauto|discriminate].
  - apply init_raises.
  - intros H. apply init_inv in H. tauto.
  - apply init_returns.
Qed.

(** The two values named by the specification are rejected. *)
Lemma init_rejects_1_and_1_5 (cls : klass) (sma inc raan argp ta : R)
      (epoch : dt.datetime) :
  __init__ cls sma 1 inc raan argp ta epoch = Raise not_implemented
  /\ __init__ cls sma 1.5 inc raan argp ta epoch = Raise not_implemented.
Proof. split; apply init_raises; lra. Qed.

(** A negative semi-major axis and a negative eccentricity are accepted. *)
Lemma init_accepts_invalid_elements :
  exists pr : predictor,
    __init__ KeplerianPredictor (-7000) (-0.5) 0 0 0 0 (dt.Datetime 0) = Ok pr
    /\ ~ (0 < _sma pr /\ 0 <= _ecc pr < 1).
Proof.
  eexists. split.
  - apply init_returns. lra.
  - cbn [_sma _ecc]. lra.
Qed.

(* ------------------------------------------------------------------------- *)
(** ** The Sun-synchronous constructor *)

(** The three branches of the try block, with the steps that cannot fail
    carried out. *)
Lemma gravity_factor_pos : 0 < 3 * R_E_KM ^ 2 * J2 * sqrt MU_E.
Proof.
  assert (H1 := R_E_KM_pos). assert (H2 := J2_pos). assert (H3 := sqrt_MU_E_pos).
  assert (0 < R_E_KM ^ 2) by (apply pow_lt; assumption).
  apply Rmult_lt_0_compat; [|assumption].
  apply Rmult_lt_0_compat; [lra|assumption].
Qed.

Lemma solve_alt_ecc (alt_km ecc : R) (inc_deg : option R) :
  0 < R_E_KM + alt_km ->
  sun_synchronous_solve (Some alt_km) (Some ecc) inc_deg
  = (a <- Np.arccos (arccos_argument (R_E_KM + alt_km) ecc) ;;
     Ok (R_E_KM + alt_km, ecc, Py.degrees a)).
Proof.
  intros Hs. unfold sun_synchronous_solve.
  rewrite Py_fpow_pos by assumption. cbn [bind].
  rewrite Np_sqrt_MU_E. cbn [bind].
  rewrite Np_div_ok by (generalize gravity_factor_pos; lra).
  reflexivity.
Qed.

Lemma solve_alt_inc (alt_km inc_deg : R) :
  0 < R_E_KM + alt_km ->
  sun_synchronous_solve (Some alt_km) None (Some inc_deg)
  = (inner <- Np.sqrt (sqrt_argument (R_E_KM + alt_km) inc_deg) ;;
     ecc <- Np.sqrt (1 - inner) ;;
     Ok (R_E_KM + alt_km, ecc, inc_deg)).
Proof.
  intros Hs. unfold sun_synchronous_solve.
  rewrite Np_sqrt_MU_E. cbn [bind].
  rewrite Py_fpow_pos by assumption. cbn [bind].
  rewrite Np_div_ok; [reflexivity|].
  assert (H1 := OMEGA_pos). assert (H2 := Rpower_pos (R_E_KM + alt_km) (7 / 2)).
  apply Rgt_not_eq. apply Rmult_lt_0_compat; lra.
Qed.

Lemma solve_ecc_inc (ecc inc_deg : R) :
  ecc ^ 2 <> 1 ->
  sun_synchronous_solve None (Some ecc) (Some inc_deg)
  = (sma <- Np.power (power_argument ecc inc_deg) (2 / 7) ;;
     Ok (sma, ecc, inc_deg)).
Proof.
  intros He. unfold sun_synchronous_solve.
  rewrite Np_sqrt_MU_E. cbn [bind].
  rewrite Np_div_ok; [reflexivity|].
  assert (H1 := OMEGA_pos).
  assert (H2 : 0 < (1 - ecc ^ 2) ^ 2).
  { replace ((1 - ecc ^ 2) ^ 2) with (Rsqr (1 - ecc ^ 2)) by (unfold Rsqr; ring).
    apply Rsqr_pos_lt. lra. }
  apply Rgt_not_eq. apply Rmult_lt_0_compat; lra.
Qed.

(** With fewer than two of the three given the constructor raises the
    ValueError of its last branch. *)
Lemma solve_fewer_than_two (alt_km ecc inc_deg : option R) :
  (alt_km = None /\ ecc = None) \/ (alt_km = None /\ inc_deg = None)
  \/ (ecc = None /\ inc_deg = None) ->
  sun_synchronous_solve alt_km ecc inc_deg = Raise exactly_two_required.
Proof.
  destruct alt_km, ecc, inc_deg; try reflexivity;
    intros [[H1 H2]|[[H1 H2]|[H1 H2]]]; discriminate.
Qed.

Section SunSynchronous.

Context {C : Collaborators}.

Lemma sun_synchronous_fewer_than_two (alt_km ecc inc_deg : option R)
      (ltan_h : R) (date : option dt.date) (ta_deg : R) (today : dt.date) :
  (alt_km = None /\ ecc = None) \/ (alt_km = None /\ inc_deg = None)
  \/ (ecc = None /\ inc_deg = None) ->
  sun_synchronous alt_km ecc inc_deg ltan_h date ta_deg today
  = Raise exactly_two_required.
Proof.
  intros H. unfold sun_synchronous.
  rewrite solve_fewer_than_two by assumption. reflexivity.
Qed.

(** What a successful call has gone through. *)
Lemma sun_synchronous_inv (alt_km ecc inc_deg : option R) (ltan_h : R)
      (date : option dt.date) (ta_deg : R) (today : dt.date)
      (pr : predictor) :
  sun_synchronous alt_km ecc inc_deg ltan_h date ta_deg today = Ok pr ->
  exists (sma e i : R) (epoch : dt.datetime),
    sun_synchronous_solve alt_km ecc inc_deg = Ok (sma, e, i)
    /\ (let '(h, m, s, us) := float_to_hms ltan_h in
        dt.datetime_new (match date with None => today | Some d => d end)
                        h m s us) = Ok epoch
    /\ e < 1
    /\ pr = Predictor J2Predictor sma e i (raan_from_ltan epoch ltan_h) 0
                      ta_deg epoch.
Proof.
  unfold sun_synchronous.
  destruct (sun_synchronous_solve alt_km ecc inc_deg)
    as [[[sma e] i]|err|what].
  - cbn [except_FloatingPointError bind].
    destruct (float_to_hms ltan_h) as [[[h m] s] us].
    destruct (dt.datetime_new _ h m s us) as [epoch|err|what]; cbn [bind].
    + intros H. apply init_inv in H. destruct H as [He ->].
      exists sma, e, i, epoch. repeat split; assumption.
    + discriminate.
    + discriminate.
  - destruct err; cbn; discriminate.
  - cbn. discriminate.
Qed.

(** C10.  Every predictor returned by the Sun-synchronous constructor has
    its argument of perigee equal to 0, whatever altitude, eccentricity,
    inclination, LTAN, date and true anomaly were supplied. *)
Theorem sun_synchronous_argp_zero (alt_km ecc inc_deg : option R)
        (ltan_h : R) (date : option dt.date) (ta_deg : R) (today : dt.date)
        (pr : predictor) :
  sun_synchronous alt_km ecc inc_deg ltan_h date ta_deg today = Ok pr ->
  _argp pr = 0.
Proof.
  intros H. apply sun_synchronous_inv in H.
  destruct H as (sma & e & i & epoch & _ & _ & _ & ->). reflexivity.
Qed.

End SunSynchronous.

(* ------------------------------------------------------------------------- *)
(** ** The Sun-synchronism equation *)

(** The nodal regression rate with the divisions cleared. *)
Lemma nodal_regression_rate_cleared (sma ecc inc : R) :
  0 < sma -> ecc ^ 2 <> 1 ->
  Spec.nodal_regression_rate sma ecc inc
  * (2 * (1 - ecc ^ 2) ^ 2 * Rpower sma (7 / 2))
  = - (3 * R_E_KM ^ 2 * J2 * sqrt MU_E) * cos inc.
Proof.
  intros Hs He.
  assert (Hn := mean_motion_pos_sma sma Hs).
  unfold Spec.nodal_regression_rate, Spec.raan_rate, Spec.semi_latus_rectum.
  set (n := Spec.mean_motion sma) in *.
  set (s72 := Rpower sma (7 / 2)) in *.
  set (r := sqrt MU_E) in *.
  replace (- (3 * n * R_E_KM ^ 2 * J2) / (2 * (sma * (1 - ecc ^ 2)) ^ 2)
           * cos inc * (2 * (1 - ecc ^ 2) ^ 2 * s72))
    with (- (3 * R_E_KM ^ 2 * J2 * cos inc) * (n * s72) / sma ^ 2)
    by (field; split; lra).
  rewrite Hn. field. lra.
Qed.

(** Elements that satisfy the equation regress at the rate OMEGA. *)
Lemma sun_synchronism_rate (sma ecc inc : R) :
  0 < sma -> ecc ^ 2 <> 1 ->
  sun_synchronism sma ecc inc ->
  Spec.nodal_regression_rate sma ecc inc = OMEGA.
Proof.
  intros Hs He Hsync. unfold sun_synchronism in Hsync.
  assert (Hc := nodal_regression_rate_cleared sma ecc inc Hs He).
  assert (H72 := Rpower_pos sma (7 / 2)).
  assert (H2 : 0 < (1 - ecc ^ 2) ^ 2).
  { replace ((1 - ecc ^ 2) ^ 2) with (Rsqr (1 - ecc ^ 2)) by (unfold Rsqr; ring).
    apply Rsqr_pos_lt. lra. }
  assert (HD : 0 < 2 * (1 - ecc ^ 2) ^ 2 * Rpower sma (7 / 2))
    by (apply Rmult_lt_0_compat; lra).
  apply Rmult_eq_reg_r with (r := 2 * (1 - ecc ^ 2) ^ 2 * Rpower sma (7 / 2));
    [|lra].
  rewrite Hc, <- Hsync. ring.
Qed.

(** Solving for the inclination. *)
Lemma solved_inclination (sma ecc a : R) :
  Np.arccos (arccos_argument sma ecc) = Ok a ->
  sun_synchronism sma ecc (Py.radians (Py.degrees a)).
Proof.
  unfold Np.arccos.
  destruct (Rle_dec (-1) (arccos_argument sma ecc)) as [H1|]; [|discriminate].
  destruct (Rle_dec (arccos_argument sma ecc) 1) as [H2|]; [|discriminate].
  intros H. injection H as <-.
  unfold sun_synchronism. rewrite radians_degrees, cos_acos by lra.
  unfold arccos_argument. field.
  generalize sqrt_MU_E_pos J2_pos R_E_KM_pos. intros. repeat split; lra.
Qed.

(** Solving for the eccentricity. *)
Lemma solved_eccentricity (sma inc_deg inner ecc : R) :
  Np.sqrt (sqrt_argument sma inc_deg) = Ok inner ->
  Np.sqrt (1 - inner) = Ok ecc ->
  0 <= ecc /\ (ecc < 1 -> sun_synchronism sma ecc (Py.radians inc_deg)).
Proof.
  unfold Np.sqrt.
  destruct (Rle_dec 0 (sqrt_argument sma inc_deg)) as [Hx|]; [|discriminate].
  intros H. injection H as <-.
  destruct (Rle_dec 0 (1 - sqrt (sqrt_argument sma inc_deg))) as [Hi|];
    [|discriminate].
  intros H. injection H as <-.
  split; [apply sqrt_pos|]. intros _.
  unfold sun_synchronism.
  replace (sqrt (1 - sqrt (sqrt_argument sma inc_deg)) ^ 2)
    with (1 - sqrt (sqrt_argument sma inc_deg))
    by (rewrite pow2_sqrt by assumption; reflexivity).
  replace (1 - (1 - sqrt (sqrt_argument sma inc_deg)))
    with (sqrt (sqrt_argument sma inc_deg)) by ring.
  rewrite pow2_sqrt by assumption.
  unfold sqrt_argument. field.
  generalize OMEGA_pos (Rpower_pos sma (7 / 2)). intros. split; lra.
Qed.

(** Solving for the semi-major axis. *)
Lemma solved_semi_major_axis (ecc inc_deg sma : R) :
  ecc ^ 2 <> 1 ->
  Np.power (power_argument ecc inc_deg) (2 / 7) = Ok sma ->
  0 < sma ->
  sun_synchronism sma ecc (Py.radians inc_deg).
Proof.
  intros He. unfold Np.power.
  destruct (Rlt_dec 0 (power_argument ecc inc_deg)) as [Hb|Hb].
  - intros H _. injection H as <-.
    unfold sun_synchronism. rewrite Rpower_2_7_7_2 by assumption.
    unfold power_argument. field.
    generalize OMEGA_pos. intros. split; lra.
  - destruct (Req_dec_T (power_argument ecc inc_deg) 0).
    + intros H Hs. injection H as <-. lra.
    + discriminate.
Qed.

(** A successful sequence of steps: every step succeeded. *)
Ltac bind_inv H :=
  repeat match type of H with
         | bind ?r _ = Ok _ =>
             let E := fresh "Hstep" in
             destruct r eqn:E; cbn [bind] in H; try discriminate H
         end.

(** The given elements are returned as given. *)
Lemma solve_alt_ecc_fields (alt_km ecc : R) (inc_deg : option R)
      (sma e i : R) :
  sun_synchronous_solve (Some alt_km) (Some ecc) inc_deg = Ok (sma, e, i) ->
  sma = R_E_KM + alt_km /\ e = ecc.
Proof.
  unfold sun_synchronous_solve. intros H. bind_inv H.
  injection H as <- <- _. split; reflexivity.
Qed.

Lemma solve_alt_inc_fields (alt_km inc_deg sma e i : R) :
  sun_synchronous_solve (Some alt_km) None (Some inc_deg) = Ok (sma, e, i) ->
  sma = R_E_KM + alt_km /\ i = inc_deg.
Proof.
  unfold sun_synchronous_solve. intros H. bind_inv H.
  injection H as <- _ <-. split; reflexivity.
Qed.

Lemma solve_ecc_inc_fields (ecc inc_deg sma e i : R) :
  sun_synchronous_solve None (Some ecc) (Some inc_deg) = Ok (sma, e, i) ->
  e = ecc /\ i = inc_deg.
Proof.
  unfold sun_synchronous_solve. intros H. bind_inv H.
  injection H as _ <- <-. split; reflexivity.
Qed.

(** Whatever the try block leaves behind on an orbit with sma > 0 and
    -1 < ecc < 1 satisfies the Sun-synchronism equation. *)
Lemma solve_sun_synchronism (alt_km ecc inc_deg : option R) (sma e i : R) :
  sun_synchronous_solve alt_km ecc inc_deg = Ok (sma, e, i) ->
  0 < sma -> -1 < e < 1 ->
  sun_synchronism sma e (Py.radians i).
Proof.
  intros H Hs He.
  assert (He2 : e ^ 2 <> 1) by nra.
  destruct alt_km as [alt_km|], ecc as [ecc|], inc_deg as [inc_deg|];
    try discriminate H.
  - destruct (solve_alt_ecc_fields _ _ _ _ _ _ H) as [-> ->].
    rewrite solve_alt_ecc in H by assumption. bind_inv H.
    injection H as <-. eapply solved_inclination; eassumption.
  - destruct (solve_alt_ecc_fields _ _ _ _ _ _ H) as [-> ->].
    rewrite solve_alt_ecc in H by assumption. bind_inv H.
    injection H as <-. eapply solved_inclination; eassumption.
  - destruct (solve_alt_inc_fields _ _ _ _ _ H) as [-> ->].
    rewrite solve_alt_inc in H by assumption. bind_inv H.
    injection H as <-.
    eapply solved_eccentricity; [eassumption..|lra].
  - destruct (solve_ecc_inc_fields _ _ _ _ _ H) as [-> ->].
    rewrite solve_ecc_inc in H by assumption. bind_inv H.
    injection H as <-.
    eapply solved_semi_major_axis; eassumption.
Qed.

Section SunSynchronousOrbit.

Context {C : Collaborators}.

(** C5.  For every predictor returned by the Sun-synchronous constructor
    whose elements are those of an orbit (sma > 0, ecc > -1; ecc < 1 holds
    of every predictor), the nodal regression rate
    -(3 n R_E^2 J2)/(2 p^2) cos(inc) of its elements equals
    OMEGA = 2 pi / (86400 * 365.2421897); in real arithmetic the equality is
    exact. *)
Theorem sun_synchronous_nodal_rate (alt_km ecc inc_deg : option R)
        (ltan_h : R) (date : option dt.date) (ta_deg : R) (today : dt.date)
        (pr : predictor) :
  sun_synchronous alt_km ecc inc_deg ltan_h date ta_deg today = Ok pr ->
  0 < _sma pr ->
  -1 < _ecc pr ->
  Spec.nodal_regression_rate (_sma pr) (_ecc pr) (Py.radians (_inc pr))
  = OMEGA.
Proof.
  intros H Hs He. apply sun_synchronous_inv in H.
  destruct H as (sma & e & i & epoch & Hsolve & _ & He1 & ->).
  cbn [_sma _ecc _inc] in *.
  apply sun_synchronism_rate; [assumption|nra|].
  eapply solve_sun_synchronism; [eassumption|assumption|lra].
Qed.

End SunSynchronousOrbit.

(* ------------------------------------------------------------------------- *)
(** ** Domain violations *)

(** A domain violation makes the try block raise FloatingPointError. *)
Lemma solve_domain_violation (alt_km ecc inc_deg : option R) :
  domain_violation alt_km ecc inc_deg ->
  sun_synchronous_solve alt_km ecc inc_deg = Raise FloatingPointError.
Proof.
  destruct alt_km as [alt_km|], ecc as [ecc|], inc_deg as [inc_deg|];
    cbn [domain_violation]; try contradiction.
  - intros [Hs Hx]. rewrite solve_alt_ecc by assumption.
    rewrite Np_arccos_out by assumption. reflexivity.
  - intros [Hs Hx]. rewrite solve_alt_ecc by assumption.
    rewrite Np_arccos_out by assumption. reflexivity.
  - intros [Hs Hx]. rewrite solve_alt_inc by assumption.
    destruct (Rlt_dec (sqrt_argument (R_E_KM + alt_km) inc_deg) 0) as [Hn|Hn].
    + rewrite Np_sqrt_neg by assumption. reflexivity.
    + rewrite Np_sqrt_ok by lra. cbn [bind].
      rewrite Np_sqrt_neg by lra. reflexivity.
Qed.

(** What a successful arccos or square root tells about its argument. *)
Lemma Np_arccos_inv (x a : R) :
  Np.arccos x = Ok a -> -1 <= x <= 1 /\ a = acos x.
Proof.
  unfold Np.arccos.
  destruct (Rle_dec (-1) x); [|discriminate].
  destruct (Rle_dec x 1); [|discriminate].
  intros H. injection H as <-. repeat split; assumption.
Qed.

Lemma Np_sqrt_inv (x r : R) : Np.sqrt x = Ok r -> 0 <= x /\ r = sqrt x.
Proof.
  unfold Np.sqrt. destruct (Rle_dec 0 x); [|discriminate].
  intros H. injection H as <-. split; [assumption|reflexivity].
Qed.

Lemma degrees_acos_range (x : R) : 0 <= Py.degrees (acos x) <= 180.
Proof.
  destruct (acos_bound x) as [Hlo Hhi]. assert (HPI := PI_RGT_0).
  unfold Py.degrees. split.
  - apply Rmult_le_pos; [assumption|].
    apply Rlt_le, Rdiv_lt_0_compat; lra.
  - replace 180 with (PI * (180 / PI)) at 2 by (field; lra).
    apply Rmult_le_compat_r; [|assumption].
    apply Rlt_le, Rdiv_lt_0_compat; lra.
Qed.

Lemma solve_alt_ecc_range (alt_km ecc : R) (inc_deg : option R)
      (sma e i : R) :
  sun_synchronous_solve (Some alt_km) (Some ecc) inc_deg = Ok (sma, e, i) ->
  exists x : R, i = Py.degrees (acos x).
Proof.
  unfold sun_synchronous_solve. intros H. bind_inv H.
  injection H as _ _ <-.
  match goal with
  | Hx : Np.arccos ?x = Ok _ |- _ =>
      apply Np_arccos_inv in Hx; destruct Hx as [_ ->]; exists x; reflexivity
  end.
Qed.

Section DomainViolation.

Context {C : Collaborators}.

(** C3.  For every input whose arccos argument x has |x| > 1, or one of
    whose square roots has a negative radicand, the Sun-synchronous
    constructor raises InvalidOrbitError; no predictor is returned. *)
Theorem sun_synchronous_invalid_orbit (alt_km ecc inc_deg : option R)
        (ltan_h : R) (date : option dt.date) (ta_deg : R) (today : dt.date) :
  domain_violation alt_km ecc inc_deg ->
  sun_synchronous alt_km ecc inc_deg ltan_h date ta_deg today
  = Raise invalid_orbit.
Proof.
  intros H. unfold sun_synchronous.
  rewrite solve_domain_violation by assumption. reflexivity.
Qed.

(** What is returned holds an inclination in [0, 180] when the inclination
    was solved for, and an eccentricity in [0, 1) when the eccentricity
    was. *)
Lemma sun_synchronous_solved_range (alt_km ecc inc_deg : option R)
      (ltan_h : R) (date : option dt.date) (ta_deg : R) (today : dt.date)
      (pr : predictor) :
  sun_synchronous alt_km ecc inc_deg ltan_h date ta_deg today = Ok pr ->
  (alt_km <> None -> ecc <> None -> 0 <= _inc pr <= 180)
  /\ (alt_km <> None -> ecc = None -> 0 <= _ecc pr < 1).
Proof.
  intros H. apply sun_synchronous_inv in H.
  destruct H as (sma & e & i & epoch & Hsolve & _ & He1 & ->).
  cbn [_inc _ecc].
  destruct alt_km as [alt_km|], ecc as [ecc|];
    (split; [intros Ha Hb | intros Ha Hb]); try congruence.
  - destruct (solve_alt_ecc_range _ _ _ _ _ _ Hsolve) as [x ->].
    apply degrees_acos_range.
  - destruct inc_deg as [inc_deg|]; [|discriminate Hsolve].
    split; [|assumption].
    unfold sun_synchronous_solve in Hsolve. bind_inv Hsolve.
    injection Hsolve as _ <- _.
    match goal with
    | Hx : Np.sqrt (1 - _) = Ok _ |- _ =>
        apply Np_sqrt_inv in Hx; destruct Hx as [_ ->]
    end.
    apply sqrt_pos.
Qed.

End DomainViolation.

(* ------------------------------------------------------------------------- *)
(** ** Running the embedding *)

(** Noon is a valid time of day. *)
Lemma datetime_new_noon (d : dt.date) :
  dt.datetime_new d 12 0 0 0 = Ok (noon d).
Proof. reflexivity. Qed.

Lemma sqrt_le_const (x c : R) : 0 <= x -> 0 <= c -> x <= c ^ 2 -> sqrt x <= c.
Proof.
  intros Hx Hc H. rewrite <- (sqrt_pow2 c Hc).
  apply sqrt_le_1; [assumption | apply pow2_ge_0 | assumption].
Qed.

Lemma sqrt_ge_const (x c : R) : 0 <= c -> c ^ 2 <= x -> c <= sqrt x.
Proof.
  intros Hc H. rewrite <- (sqrt_pow2 c Hc).
  apply sqrt_le_1; [apply pow2_ge_0 | | assumption].
  generalize (pow2_ge_0 c). lra.
Qed.

(** A circular orbit 600 km above the reference radius: the cosine of the
    Sun-synchronous inclination lies in [-1, 0). *)
Lemma leo_600_arccos_argument :
  -1 <= arccos_argument (R_E_KM + 600) 0 < 0.
Proof.
  unfold arccos_argument. rewrite Rpower_7_2
    by (unfold R_E_KM, wgs84.radiusearthkm; lra).
  assert (Hs : 0 < sqrt (R_E_KM + 600) <= 84).
  { split.
    - apply sqrt_lt_R0. unfold R_E_KM, wgs84.radiusearthkm. lra.
    - apply sqrt_le_const; unfold R_E_KM, wgs84.radiusearthkm; lra. }
  assert (Hr : 631 <= sqrt MU_E)
    by (apply sqrt_ge_const; unfold MU_E, wgs84.mu; lra).
  assert (HP : 0 < PI <= 4) by (split; [apply PI_RGT_0 | apply PI_4]).
  unfold OMEGA, R_E_KM, wgs84.radiusearthkm, J2, wgs84.j2 in *.
  set (s := sqrt (6378.137 + 600)) in *.
  set (r := sqrt MU_E) in *.
  replace (6378.137 + 600) with 6978.137 by lra.
  assert (HN : 0 < 2 * (6978.137 ^ 3 * s) * (2 * PI / (86400 * 365.2421897))
               <= 14500000).
  { replace (2 * (6978.137 ^ 3 * s) * (2 * PI / (86400 * 365.2421897)))
      with ((4 * 6978.137 ^ 3 / (86400 * 365.2421897)) * (s * PI))
      by (field; try lra).
    assert (0 < 4 * 6978.137 ^ 3 / (86400 * 365.2421897) <= 43100)
      by (split; lra).
    assert (0 < s * PI <= 84 * 4) by nra.
    nra. }
  assert (HD : 83000000 <= 3 * 6378.137 ^ 2 * 0.00108262998905 * r).
  { assert (132000 <= 3 * 6378.137 ^ 2 * 0.00108262998905) by lra. nra. }
  replace (-2 * (6978.137 ^ 3 * s) * (2 * PI / (86400 * 365.2421897))
           * (1 - 0 ^ 2) ^ 2)
    with (- (2 * (6978.137 ^ 3 * s) * (2 * PI / (86400 * 365.2421897))))
    by ring.
  set (N := 2 * (6978.137 ^ 3 * s) * (2 * PI / (86400 * 365.2421897))) in *.
  set (D := 3 * 6378.137 ^ 2 * 0.00108262998905 * r) in *.
  assert (HDpos : 0 < D) by lra.
  split.
  - apply Rmult_le_reg_r with (r := D); [assumption|].
    replace (- N / D * D) with (- N) by (field; lra). lra.
  - apply Rmult_lt_reg_r with (r := D); [assumption|].
    replace (- N / D * D) with (- N) by (field; lra). lra.
Qed.

(** The orbit is retrograde. *)
Lemma leo_600_inc_deg_retrograde : 90 < leo_600_inc_deg.
Proof.
  destruct leo_600_arccos_argument as [Hlo Hhi].
  unfold leo_600_inc_deg.
  set (x := arccos_argument (R_E_KM + 600) 0) in *.
  assert (HPI := PI_RGT_0).
  assert (Ha : PI / 2 < acos x).
  { destruct (acos_bound x) as [H0 H1].
    apply cos_decreasing_0; try lra.
    rewrite cos_PI2, cos_acos by lra. assumption. }
  unfold Py.degrees.
  replace 90 with (PI / 2 * (180 / PI)) by (field; lra).
  apply Rmult_lt_compat_r; [|assumption].
  apply Rdiv_lt_0_compat; lra.
Qed.

Lemma leo_600_solve (inc_deg : option R) :
  sun_synchronous_solve (Some 600) (Some 0) inc_deg
  = Ok (R_E_KM + 600, 0, leo_600_inc_deg).
Proof.
  rewrite solve_alt_ecc by (unfold R_E_KM, wgs84.radiusearthkm; lra).
  rewrite Np_arccos_ok by (generalize leo_600_arccos_argument; lra).
  reflexivity.
Qed.

(** The circular Sun-synchronous orbit at 600 km is constructed, whether
    or not an inclination is passed along. *)
Lemma leo_600_sun_synchronous (inc_deg : option R) (date : option dt.date)
      (ta_deg : R) (today : dt.date) :
  sun_synchronous (C := tracing) (Some 600) (Some 0) inc_deg 12 date ta_deg
                  today
  = Ok (Predictor J2Predictor (R_E_KM + 600) 0 leo_600_inc_deg 0 0 ta_deg
          (noon (match date with None => today | Some d => d end))).
Proof.
  unfold sun_synchronous. rewrite leo_600_solve.
  cbn [except_FloatingPointError bind float_to_hms tracing].
  rewrite datetime_new_noon. cbn [bind raan_from_ltan tracing].
  apply init_returns. lra.
Qed.

(** The inclination passed along with an altitude and an eccentricity is
    never read. *)
Lemma sun_synchronous_ignores_inclination {C : Collaborators}
      (alt_km ecc inc_deg : R) (ltan_h : R) (date : option dt.date)
      (ta_deg : R) (today : dt.date) :
  sun_synchronous (Some alt_km) (Some ecc) (Some inc_deg) ltan_h date ta_deg
                  today
  = sun_synchronous (Some alt_km) (Some ecc) None ltan_h date ta_deg today.
Proof. reflexivity. Qed.

(** C2.  Called with all three of altitude (600 km), eccentricity (0) and
    inclination (45 degrees), the Sun-synchronous constructor raises nothing:
    it returns a predictor, whose inclination is the solved one (above 90
    degrees) and not the 45 degrees that were passed. *)
Theorem sun_synchronous_three_given_returns :
  exists pr : predictor,
    sun_synchronous (C := tracing) (Some 600) (Some 0) (Some 45) 12
                    (Some new_year_2020) 0 new_year_2020 = Ok pr
    /\ _inc pr <> 45.
Proof.
  eexists. split.
  - apply leo_600_sun_synchronous.
  - cbn [_inc]. generalize leo_600_inc_deg_retrograde. lra.
Qed.

(* ------------------------------------------------------------------------- *)
(** ** Constellations *)

Section Constellation.

Context {C : Collaborators}.

(** The true anomaly is stored as given, and the current date matters only
    through the date used. *)
Lemma sun_synchronous_with_ta (alt_km ecc inc_deg : option R) (ltan_h : R)
      (date date' : option dt.date) (ta_deg ta_deg' : R)
      (today today' : dt.date) (pr : predictor) :
  sun_synchronous alt_km ecc inc_deg ltan_h date ta_deg today = Ok pr ->
  date_used date' today' = date_used date today ->
  sun_synchronous alt_km ecc inc_deg ltan_h date' ta_deg' today'
  = Ok (with_ta pr ta_deg').
Proof.
  intros H Hd. apply sun_synchronous_inv in H.
  destruct H as (sma & e & i & epoch & Hsolve & Hepoch & He & ->).
  unfold sun_synchronous. rewrite Hsolve.
  cbn [except_FloatingPointError bind].
  fold (date_used date' today'). rewrite Hd. unfold date_used.
  destruct (float_to_hms ltan_h) as [[[h m] s] us].
  rewrite Hepoch. cbn [bind].
  apply init_returns, He.
Qed.

Lemma yield_each_all_ok {A : Type} (body : nat -> R -> result A)
      (f : R -> A) (items : list R) (i : nat) :
  (forall k x, nth_error items k = Some x -> body (i + k)%nat x = Ok (f x)) ->
  yield_each body i items = (map f items, Exhausted).
Proof.
  revert i. induction items as [|x rest IH]; intros i H.
  - reflexivity.
  - cbn [yield_each map].
    assert (H0 := H 0%nat x eq_refl). rewrite Nat.add_0_r in H0.
    rewrite H0, IH.
    + reflexivity.
    + intros k y Hk. replace (S i + k)%nat with (i + S k)%nat by lia.
      apply H. exact Hk.
Qed.

(** X24.  For every count n >= 1 and arguments with which the
    Sun-synchronous constructor succeeds on the date d, if d is the date
    every call works with (it is the date passed, or no date is passed and
    the current date is d each time the generator is resumed), the
    constellation yields exactly n predictors and ends normally; the i-th
    one, i = 0 .. n-1, is the predictor constructed for true anomaly 0 with
    its true anomaly replaced by i * (360 / n), so that all share sma, ecc,
    inc, raan, argp and epoch. *)
Theorem constellation_evenly_spaced (num_satellites : Z)
        (alt_km ecc inc_deg : option R) (ltan_h : R) (date : option dt.date)
        (clock : nat -> dt.date) (d : dt.date) (pr : predictor) :
  (1 <= num_satellites)%Z ->
  (forall i, (i < Z.to_nat num_satellites)%nat ->
             date_used date (clock i) = d) ->
  sun_synchronous alt_km ecc inc_deg ltan_h (Some d) 0 d = Ok pr ->
  sun_sync_plane_constellation num_satellites alt_km ecc inc_deg ltan_h date
                               clock
  = (map (fun i => with_ta pr (INR i * (360 / IZR num_satellites)))
         (seq 0 (Z.to_nat num_satellites)),
     Exhausted).
Proof.
  intros Hn Hclock Hpr. unfold sun_sync_plane_constellation, Np.linspace.
  destruct (Z.ltb_spec num_satellites 0) as [Hneg|_]; [lia|].
  rewrite (yield_each_all_ok _ (with_ta pr)).
  - rewrite map_map. f_equal. apply map_ext. intros i. f_equal. lra.
  - intros k x Hk. cbn [Nat.add].
    assert (Hlt : (k < Z.to_nat num_satellites)%nat).
    { assert (Hsome : nth_error
                        (map (fun i => INR i * ((360 - 0) / IZR num_satellites)
                                       + 0)
                             (seq 0 (Z.to_nat num_satellites))) k <> None)
        by (rewrite Hk; discriminate).
      apply nth_error_Some in Hsome.
      rewrite length_map, length_seq in Hsome. exact Hsome. }
    eapply sun_synchronous_with_ta; [exact Hpr|].
    rewrite (Hclock k Hlt). reflexivity.
Qed.

End Constellation.

(** The scenario of the specification: four satellites at 600 km, at 0, 90,
    180 and 270 degrees, equal in everything else. *)
Lemma constellation_of_four :
  exists p0 p1 p2 p3 : predictor,
    sun_sync_plane_constellation (C := tracing) 4 (Some 600) (Some 0) None 12
                                 (Some new_year_2020) (fun _ => new_year_2020)
    = ([p0; p1; p2; p3], Exhausted)
    /\ map _ta [p0; p1; p2; p3] = [0; 90; 180; 270]
    /\ map (fun p => with_ta p 0) [p0; p1; p2; p3]
       = [leo_600; leo_600; leo_600; leo_600].
Proof.
  do 4 eexists. split; [|split].
  - unfold sun_sync_plane_constellation, Np.linspace.
    change (Z.to_nat 4) with 4%nat.
    cbn [Z.ltb Z.compare seq map yield_each].
    rewrite !leo_600_sun_synchronous. reflexivity.
  - cbn [map _ta INR]. repeat (f_equal; try lra).
  - reflexivity.
Qed.

(** C7.  The predictors of a constellation do not always share their
    epoch: two satellites at 600 km requested without a date, the generator
    resumed once on 2020-01-01 and once on 2020-01-02, are both yielded,
    and the epoch of the second is not the epoch of the first.  Each
    resumption reads the current date anew. *)
Lemma constellation_across_midnight :
  exists p0 p1 : predictor,
    sun_sync_plane_constellation (C := tracing) 2 (Some 600) (Some 0) None 12
                                 None
                                 (fun i => dt.Date (737425 + Z.of_nat i))
    = ([p0; p1], Exhausted)
    /\ _epoch p0 <> _epoch p1.
Proof.
  do 2 eexists. split.
  - unfold sun_sync_plane_constellation, Np.linspace.
    change (Z.to_nat 2) with 2%nat.
    cbn [Z.ltb Z.compare seq map yield_each].
    rewrite !leo_600_sun_synchronous. reflexivity.
  - cbn [_epoch]. unfold noon. cbn. discriminate.
Qed.

(* ------------------------------------------------------------------------- *)
(** ** The gravity model *)

(** C8 (as amended).  kepler, pkepler and the Sun-synchronous solver take
    no gravity model: on every call they compute what the
    gravity-parametrised functions compute for WGS84, the model whose
    constants the two modules bind to MU_E, R_E_KM and J2. *)
Theorem gravity_model_fixed_to_wgs84 {C : Collaborators} :
  (forall argp delta_t_sec ecc inc p raan sma ta : R,
      kepler argp delta_t_sec ecc inc p raan sma ta
      = Explicit.kepler Explicit.WGS84 argp delta_t_sec ecc inc p raan sma ta)
  /\ (forall argp delta_t_sec ecc inc p raan sma ta : R,
         pkepler argp delta_t_sec ecc inc p raan sma ta
         = Explicit.pkepler Explicit.WGS84 argp delta_t_sec ecc inc p raan sma
                            ta)
  /\ (forall alt_km ecc inc_deg : option R,
         sun_synchronous_solve alt_km ecc inc_deg
         = Explicit.sun_synchronous_solve Explicit.WGS84 alt_km ecc inc_deg).
Proof. repeat split. Qed.

(** A caller working with WGS72 gets from [kepler] a state that differs from
    the WGS72 one: the mean anomaly after 60 s on a circular orbit of radius
    7000 km is the WGS84 one. *)
Lemma kepler_not_parametrised :
  kepler (C := tracing) 0 60 0 0 7000 0 7000 0
  <> Explicit.kepler (C := tracing) Explicit.WGS72 0 60 0 0 7000 0 7000 0.
Proof.
  unfold kepler, Explicit.kepler.
  assert (H3 : (7000 ^ 3 <> 0)) by lra.
  rewrite !(call_ta_to_M_ok (C := tracing)) by lra. cbn [bind].
  rewrite !Py_div_ok by assumption. cbn [bind].
  rewrite !Py_sqrt_ok
    by (unfold wgs84.mu; cbn [Explicit.gm_mu Explicit.WGS72];
        apply Rlt_le, Rdiv_lt_0_compat; lra).
  cbn [bind].
  rewrite !(call_M_to_ta_ok (C := tracing)) by lra.
  cbn [bind ta_to_M M_to_ta coe2rv tracing Explicit.gm_mu Explicit.WGS72].
  intros H. injection H as H.
  assert (Hlt : sqrt (wgs84.mu / 7000 ^ 3) < sqrt (398600.8 / 7000 ^ 3)).
  { apply sqrt_lt_1_alt. unfold wgs84.mu. split.
    - apply Rlt_le, Rdiv_lt_0_compat; lra.
    - apply Rmult_lt_compat_r; [apply Rinv_0_lt_compat|]; lra. }
  cbn [pow] in Hlt. lra.
Qed.

(* ------------------------------------------------------------------------- *)
(** ** Instances of the theorems *)

(** One minute of two-body motion on the 7000 km orbit. *)
Lemma keplerian_propagate_two_body_at_7000 :
  fst (_propagate_eci (C := tracing) one_minute_past_noon sat_7000)
  = Ok ((Spec.semi_latus_rectum 7000 0, 0, Py.radians 45),
        (Py.radians 0, Py.radians 0,
         Py.radians 0
         + Spec.mean_motion 7000
           * dt.total_seconds_between one_minute_past_noon
                                      (noon new_year_2020))).
Proof.
  apply (keplerian_propagate_two_body (C := tracing) sat_7000
                                      one_minute_past_noon).
  - reflexivity.
  - cbn [_sma sat_7000]. lra.
  - cbn [_ecc sat_7000]. lra.
Defined.

(** One minute of J2 motion on the Sun-synchronous orbit at 600 km. *)
Lemma j2_propagate_secular_drift_at_600 :
  let n := Spec.mean_motion (R_E_KM + 600) in
  let p := Spec.semi_latus_rectum (R_E_KM + 600) 0 in
  let inc := Py.radians leo_600_inc_deg in
  let delta_t :=
    dt.total_seconds_between one_minute_past_noon (noon new_year_2020) in
  fst (_propagate_eci (C := tracing) one_minute_past_noon leo_600)
  = Ok ((p, 0, inc),
        (Py.radians 0 + Spec.raan_rate n p inc * delta_t,
         Py.radians 0 + Spec.argp_rate n p inc * delta_t,
         Py.radians 0 + (n + Spec.M0_dot n p inc 0) * delta_t)).
Proof.
  apply (j2_propagate_secular_drift (C := tracing) leo_600
                                    one_minute_past_noon).
  - reflexivity.
  - cbn [_sma leo_600]. unfold R_E_KM, wgs84.radiusearthkm. lra.
  - cbn [_ecc leo_600]. lra.
Defined.

(** The orbit at 600 km regresses at the rate OMEGA. *)
Lemma sun_synchronous_nodal_rate_at_600 :
  Spec.nodal_regression_rate (R_E_KM + 600) 0 (Py.radians leo_600_inc_deg)
  = OMEGA.
Proof.
  apply (sun_synchronous_nodal_rate (C := tracing) (Some 600) (Some 0) None 12
           (Some new_year_2020) 0 new_year_2020 leo_600).
  - apply leo_600_sun_synchronous.
  - cbn [_sma leo_600]. unfold R_E_KM, wgs84.radiusearthkm. lra.
  - cbn [_ecc leo_600]. lra.
Defined.

(** The orbit at 600 km has its perigee at the ascending node. *)
Lemma sun_synchronous_argp_zero_at_600 : _argp leo_600 = 0.
Proof.
  apply (sun_synchronous_argp_zero (C := tracing) (Some 600) (Some 0) None 12
           (Some new_year_2020) 0 new_year_2020 leo_600).
  apply leo_600_sun_synchronous.
Defined.

(** No Sun-synchronous orbit at 600 km is equatorial: the radicand of the
    inner square root is negative. *)
Lemma equatorial_600_violation : domain_violation (Some 600) None (Some 0).
Proof.
  cbn [domain_violation]. split.
  - unfold R_E_KM, wgs84.radiusearthkm. lra.
  - left. unfold sqrt_argument, Py.radians.
    replace (0 * (PI / 180)) with 0 by ring. rewrite cos_0.
    assert (HK := gravity_factor_pos). assert (HO := OMEGA_pos).
    assert (HP := Rpower_pos (R_E_KM + 600) (7 / 2)).
    assert (HD : 0 < 2 * OMEGA * Rpower (R_E_KM + 600) (7 / 2))
      by (apply Rmult_lt_0_compat; lra).
    apply Rmult_lt_reg_r with (r := 2 * OMEGA * Rpower (R_E_KM + 600) (7 / 2));
      [assumption|].
    replace (-3 * R_E_KM ^ 2 * J2 * sqrt MU_E * 1
             / (2 * OMEGA * Rpower (R_E_KM + 600) (7 / 2))
             * (2 * OMEGA * Rpower (R_E_KM + 600) (7 / 2)))
      with (- (3 * R_E_KM ^ 2 * J2 * sqrt MU_E)) by (field; lra).
    lra.
Qed.

(** Asking for an equatorial Sun-synchronous orbit at 600 km raises
    InvalidOrbitError. *)
Lemma sun_synchronous_invalid_orbit_equatorial :
  sun_synchronous (C := tracing) (Some 600) None (Some 0) 12 None 0
                  new_year_2020
  = Raise invalid_orbit.
Proof.
  apply (sun_synchronous_invalid_orbit (C := tracing) (Some 600) None (Some 0)
           12 None 0 new_year_2020).
  exact equatorial_600_violation.
Defined.

(** Four satellites at 600 km, no date passed, generated within one day. *)
Lemma constellation_evenly_spaced_four :
  sun_sync_plane_constellation (C := tracing) 4 (Some 600) (Some 0) None 12
                               None (fun _ => new_year_2020)
  = (map (fun i => with_ta leo_600 (INR i * (360 / IZR 4)))
         (seq 0 (Z.to_nat 4)),
     Exhausted).
Proof.
  apply (constellation_evenly_spaced (C := tracing) 4 (Some 600) (Some 0) None
           12 None (fun _ => new_year_2020) new_year_2020 leo_600).
  - lia.
  - intros i _. reflexivity.
  - apply leo_600_sun_synchronous.
Defined.

(* ------------------------------------------------------------------------- *)
(** ** When propagation returns and when it raises *)

Section PropagationOutcome.

Context {C : Collaborators}.

Lemma cube_negative (x : R) : x < 0 -> x ^ 3 < 0.
Proof.
  intros Hx. assert (H2 : 0 < x * x) by nra.
  replace (x ^ 3) with (x * (x * x)) by ring. nra.
Qed.

(** The outcome of [kepler] on the elliptical domain is decided by the sign
    of the semi-major axis. *)
Lemma kepler_zero (argp delta_t_sec ecc inc p raan ta : R) :
  -1 < ecc < 1 ->
  kepler argp delta_t_sec ecc inc p raan 0 ta = Raise ZeroDivisionError.
Proof.
  intros He. unfold kepler.
  rewrite call_ta_to_M_ok by assumption. cbn [bind]. unfold Py.div.
  destruct (Req_dec_T (0 ^ 3) 0) as [_|H]; [reflexivity|].
  exfalso. apply H. ring.
Qed.

Lemma sqrt_of_negative_quotient (mu x : R) :
  0 < mu -> x < 0 -> Py.sqrt (mu / x) = Raise (ValueError "math domain error").
Proof.
  intros Hmu Hx. unfold Py.sqrt.
  destruct (Rlt_dec (mu / x) 0) as [_|H]; [reflexivity|].
  exfalso. apply H. apply Ropp_lt_cancel. rewrite Ropp_0.
  replace (- (mu / x)) with (mu / - x) by (field; lra).
  apply Rdiv_lt_0_compat; lra.
Qed.

Lemma kepler_negative (argp delta_t_sec ecc inc p raan sma ta : R) :
  -1 < ecc < 1 -> sma < 0 ->
  kepler argp delta_t_sec ecc inc p raan sma ta
  = Raise (ValueError "math domain error").
Proof.
  intros He Hs. unfold kepler.
  assert (H3 : sma ^ 3 < 0) by (apply cube_negative; assumption).
  rewrite call_ta_to_M_ok by assumption. cbn [bind].
  rewrite Py_div_ok by lra. cbn [bind].
  rewrite sqrt_of_negative_quotient
    by (assumption || (unfold wgs84.mu; lra)).
  reflexivity.
Qed.

(** X1.  For a predictor whose eccentricity lies in (-1, 1) and whose
    stored semi-major axis is not positive (the constructor accepts it),
    Keplerian propagation raises and returns no state, whatever the angles
    and the target epoch; when the semi-major axis is zero the exception is
    ZeroDivisionError. *)
Theorem keplerian_propagate_outcome (self : predictor)
        (when_utc : dt.datetime) :
  -1 < _ecc self < 1 ->
  _sma self <= 0 ->
  exists e : exn,
    fst (KeplerianPredictor_propagate_eci when_utc self) = Raise e
    /\ (_sma self = 0 -> e = ZeroDivisionError).
Proof.
  intros He Hs.
  unfold KeplerianPredictor_propagate_eci, mbind, getattr, call. cbn [fst].
  destruct (Req_dec_T (_sma self) 0) as [Hz|Hnz].
  - rewrite Hz, kepler_zero by assumption. eexists. split; reflexivity.
  - rewrite kepler_negative by (assumption || lra).
    eexists. split; [reflexivity|]. intros Hz. contradiction.
Qed.

(** The mean motion is computed first in [pkepler]. *)
Lemma pkepler_zero (argp delta_t_sec ecc inc p raan ta : R) :
  pkepler argp delta_t_sec ecc inc p raan 0 ta = Raise ZeroDivisionError.
Proof.
  unfold pkepler, Py.div.
  destruct (Req_dec_T (0 ^ 3) 0) as [_|H]; [reflexivity|].
  exfalso. apply H. ring.
Qed.

Lemma pkepler_negative (argp delta_t_sec ecc inc p raan sma ta : R) :
  sma < 0 ->
  pkepler argp delta_t_sec ecc inc p raan sma ta
  = Raise (ValueError "math domain error").
Proof.
  intros Hs. unfold pkepler.
  assert (H3 : sma ^ 3 < 0) by (apply cube_negative; assumption).
  rewrite Py_div_ok by lra. cbn [bind].
  rewrite sqrt_of_negative_quotient by (assumption || apply MU_E_pos).
  reflexivity.
Qed.

(** X2.  For a predictor whose stored semi-major axis is not positive (the
    constructor accepts it), J2 propagation raises and returns no state,
    whatever the eccentricity, the angles and the target epoch: the mean
    motion is computed before anything else.  When the semi-major axis is
    zero the exception is ZeroDivisionError. *)
Theorem j2_propagate_outcome (self : predictor) (when_utc : dt.datetime) :
  _sma self <= 0 ->
  exists e : exn,
    fst (J2Predictor_propagate_eci when_utc self) = Raise e
    /\ (_sma self = 0 -> e = ZeroDivisionError).
Proof.
  intros Hs.
  unfold J2Predictor_propagate_eci, mbind, getattr, call. cbn [fst].
  destruct (Req_dec_T (_sma self) 0) as [Hz|Hnz].
  - rewrite Hz, pkepler_zero. eexists. split; reflexivity.
  - rewrite pkepler_negative by lra.
    eexists. split; [reflexivity|]. intros Hz. contradiction.
Qed.

End PropagationOutcome.

(* ------------------------------------------------------------------------- *)
(** ** Propagation over no time, and from a moved epoch *)

Lemma total_seconds_between_same (t : dt.datetime) :
  dt.total_seconds_between t t = 0.
Proof.
  unfold dt.total_seconds_between. rewrite Z.sub_diag. lra.
Qed.

Lemma total_seconds_between_later (k : Z) (a b : dt.datetime) :
  dt.total_seconds_between (later k a) (later k b)
  = dt.total_seconds_between a b.
Proof.
  unfold dt.total_seconds_between, later. cbn [dt.microseconds].
  f_equal. f_equal. lia.
Qed.

Section PropagationInTime.

Context {C : Collaborators}.

(** X3.  Propagating a predictor on an elliptical orbit to its own reference
    epoch applies no drift: under both models the state is the conversion of
    the stored elements, with the stored true anomaly taken to a mean
    anomaly and back, and the two models agree. *)
Theorem propagate_to_epoch (self : predictor) :
  0 < _sma self ->
  -1 < _ecc self < 1 ->
  let state :=
    coe2rv MU_E (_sma self * (1 - _ecc self ^ 2)) (_ecc self)
           (Py.radians (_inc self)) (Py.radians (_raan self))
           (Py.radians (_argp self))
           (M_to_ta (ta_to_M (Py.radians (_ta self)) (_ecc self))
                    (_ecc self)) in
  fst (KeplerianPredictor_propagate_eci (_epoch self) self) = Ok state
  /\ fst (J2Predictor_propagate_eci (_epoch self) self) = Ok state.
Proof.
  intros Hs He state.
  unfold KeplerianPredictor_propagate_eci, J2Predictor_propagate_eci,
    mbind, getattr, call.
  cbn [fst]. rewrite total_seconds_between_same. split.
  - rewrite kepler_ok by assumption.
    rewrite Rmult_0_r, Rplus_0_r. reflexivity.
  - fold (Spec.semi_latus_rectum (_sma self) (_ecc self)).
    rewrite (pkepler_ok _ _ _ _ _ _ _ Hs He).
    rewrite !Rmult_0_r, !Rplus_0_r. reflexivity.
Qed.

(** X4.  Propagation depends on the target and the reference epoch only
    through their difference: moving both by the same number of
    microseconds changes neither the state returned nor the exception
    raised, for either class. *)
Theorem propagate_time_shift (k : Z) (self : predictor)
        (when_utc : dt.datetime) :
  fst (_propagate_eci (later k when_utc) (with_epoch_later k self))
  = fst (_propagate_eci when_utc self).
Proof.
  unfold _propagate_eci.
  replace (class_of (with_epoch_later k self)) with (class_of self)
    by reflexivity.
  destruct (class_of self);
    [unfold KeplerianPredictor_propagate_eci
    |unfold J2Predictor_propagate_eci];
    unfold mbind, getattr, call, with_epoch_later;
    cbn [fst _sma _ecc _inc _raan _argp _ta _epoch];
    rewrite total_seconds_between_later; reflexivity.
Qed.

End PropagationInTime.

(** Zero duration, on the 7000 km orbit. *)
Lemma propagate_to_epoch_at_7000 :
  fst (KeplerianPredictor_propagate_eci (C := tracing) (noon new_year_2020)
                                        sat_7000)
  = Ok ((7000 * (1 - 0 ^ 2), 0, Py.radians 45),
        (Py.radians 0, Py.radians 0, Py.radians 0))
  /\ fst (J2Predictor_propagate_eci (C := tracing) (noon new_year_2020)
                                    sat_7000)
     = Ok ((7000 * (1 - 0 ^ 2), 0, Py.radians 45),
           (Py.radians 0, Py.radians 0, Py.radians 0)).
Proof.
  apply (propagate_to_epoch (C := tracing) sat_7000).
  - cbn [_sma sat_7000]. lra.
  - cbn [_ecc sat_7000]. lra.
Defined.

(* ------------------------------------------------------------------------- *)
(** ** What the Sun-synchronous constructor accepts and returns *)

Lemma sq_eq_1 (x : R) : x ^ 2 = 1 -> x = 1 \/ x = -1.
Proof.
  intros H. assert (H0 : (x - 1) * (x + 1) = 0) by (ring_simplify; lra).
  apply Rmult_integral in H0. destruct H0; [left|right]; lra.
Qed.

Lemma sq_neq_1 (x : R) : x < 1 -> x <> -1 -> x ^ 2 <> 1.
Proof. intros H1 H2 H. apply sq_eq_1 in H. destruct H; lra. Qed.

Lemma sq_factor_pos (ecc : R) : ecc ^ 2 <> 1 -> 0 < (1 - ecc ^ 2) ^ 2.
Proof.
  intros He.
  replace ((1 - ecc ^ 2) ^ 2) with (Rsqr (1 - ecc ^ 2)) by (unfold Rsqr; ring).
  apply Rsqr_pos_lt. lra.
Qed.

Lemma div_neg_pos (n d : R) : n < 0 -> 0 < d -> n / d < 0.
Proof.
  intros Hn Hd. assert (Hi : 0 < / d) by (apply Rinv_0_lt_compat; assumption).
  unfold Rdiv. nra.
Qed.

(** For a real orbit the cosine of the solved inclination is negative. *)
Lemma arccos_argument_negative (sma ecc : R) :
  ecc ^ 2 <> 1 -> arccos_argument sma ecc < 0.
Proof.
  intros He. unfold arccos_argument.
  assert (HO := OMEGA_pos).
  assert (HP := Rpower_pos sma (7 / 2)). assert (H2 := sq_factor_pos ecc He).
  assert (HN : 0 < 2 * Rpower sma (7 / 2) * OMEGA * (1 - ecc ^ 2) ^ 2).
  { apply Rmult_lt_0_compat; [|assumption].
    apply Rmult_lt_0_compat; [|assumption]. lra. }
  apply div_neg_pos; [lra | apply gravity_factor_pos].
Qed.

Lemma acos_of_negative (x : R) : -1 <= x < 0 -> PI / 2 < acos x.
Proof.
  intros Hx. assert (HPI := PI_RGT_0).
  destruct (acos_bound x) as [H0 H1].
  apply cos_decreasing_0; try lra.
  rewrite cos_PI2, cos_acos by lra. lra.
Qed.

Lemma degrees_gt_90 (a : R) : PI / 2 < a -> 90 < Py.degrees a.
Proof.
  intros Ha. assert (HPI := PI_RGT_0). unfold Py.degrees.
  replace 90 with (PI / 2 * (180 / PI)) by (field; lra).
  apply Rmult_lt_compat_r; [|assumption].
  apply Rdiv_lt_0_compat; lra.
Qed.

(** The cosine of an inclination strictly between -90 and 90 degrees. *)
Lemma cos_radians_pos (inc_deg : R) :
  -90 < inc_deg < 90 -> 0 < cos (Py.radians inc_deg).
Proof.
  intros H. assert (HPI := PI_RGT_0). unfold Py.radians.
  apply cos_gt_0.
  - replace (- (PI / 2)) with (-90 * (PI / 180)) by field.
    apply Rmult_lt_compat_r; lra.
  - replace (PI / 2) with (90 * (PI / 180)) by field.
    apply Rmult_lt_compat_r; lra.
Qed.

Lemma sqrt_argument_negative (sma inc_deg : R) :
  0 < cos (Py.radians inc_deg) -> sqrt_argument sma inc_deg < 0.
Proof.
  intros Hc. unfold sqrt_argument.
  assert (HK := gravity_factor_pos). assert (HO := OMEGA_pos).
  assert (HP := Rpower_pos sma (7 / 2)).
  assert (HN : 0 < 3 * R_E_KM ^ 2 * J2 * sqrt MU_E * cos (Py.radians inc_deg))
    by (apply Rmult_lt_0_compat; assumption).
  apply div_neg_pos; [lra | apply Rmult_lt_0_compat; lra].
Qed.

Lemma power_argument_negative (ecc inc_deg : R) :
  ecc ^ 2 <> 1 -> 0 < cos (Py.radians inc_deg) ->
  power_argument ecc inc_deg < 0.
Proof.
  intros He Hc. unfold power_argument.
  assert (HK := gravity_factor_pos). assert (HO := OMEGA_pos).
  assert (H2 := sq_factor_pos ecc He).
  assert (HN : 0 < cos (Py.radians inc_deg)
                   * (3 * R_E_KM ^ 2 * J2 * sqrt MU_E))
    by (apply Rmult_lt_0_compat; assumption).
  apply div_neg_pos; [lra | apply Rmult_lt_0_compat; lra].
Qed.

Lemma Np_power_neg (x y : R) : x < 0 -> Np.power x y = Raise FloatingPointError.
Proof.
  intros H. unfold Np.power.
  destruct (Rlt_dec 0 x); [lra|].
  destruct (Req_dec_T x 0); [lra|reflexivity].
Qed.

(** The constructor sees the three optional arguments only through the try
    block. *)
Lemma sun_synchronous_of_solve {C : Collaborators}
      (alt_km ecc inc_deg alt_km' ecc' inc_deg' : option R) (ltan_h : R)
      (date : option dt.date) (ta_deg : R) (today : dt.date) :
  sun_synchronous_solve alt_km ecc inc_deg
  = sun_synchronous_solve alt_km' ecc' inc_deg' ->
  sun_synchronous alt_km ecc inc_deg ltan_h date ta_deg today
  = sun_synchronous alt_km' ecc' inc_deg' ltan_h date ta_deg today.
Proof. intros H. unfold sun_synchronous. rewrite H. reflexivity. Qed.

Section SunSynchronousArguments.

Context {C : Collaborators}.

(** X5.  With none or only one of altitude, eccentricity and inclination
    given, the Sun-synchronous constructor raises the ValueError "Exactly
    two of altitude, eccentricity and inclination must be given", whatever
    the value given and whatever LTAN, date and true anomaly are passed. *)
Theorem sun_synchronous_needs_two (x : R) (ltan_h : R)
        (date : option dt.date) (ta_deg : R) (today : dt.date) :
  sun_synchronous None None None ltan_h date ta_deg today
  = Raise exactly_two_required
  /\ sun_synchronous (Some x) None None ltan_h date ta_deg today
     = Raise exactly_two_required
  /\ sun_synchronous None (Some x) None ltan_h date ta_deg today
     = Raise exactly_two_required
  /\ sun_synchronous None None (Some x) ltan_h date ta_deg today
     = Raise exactly_two_required.
Proof.
  repeat split; apply sun_synchronous_fewer_than_two; tauto.
Qed.

(** X6.  An inclination strictly between -90 and 90 degrees is refused
    with InvalidOrbitError, whether it comes with an altitude (above the
    centre of the Earth) or with an eccentricity (other than 1 and -1): no
    Sun-synchronous orbit is prograde. *)
Theorem sun_synchronous_prograde_refused (alt_km ecc inc_deg : R)
        (ltan_h : R) (date : option dt.date) (ta_deg : R) (today : dt.date) :
  -90 < inc_deg < 90 ->
  0 < R_E_KM + alt_km ->
  ecc ^ 2 <> 1 ->
  sun_synchronous (Some alt_km) None (Some inc_deg) ltan_h date ta_deg today
  = Raise invalid_orbit
  /\ sun_synchronous None (Some ecc) (Some inc_deg) ltan_h date ta_deg today
     = Raise invalid_orbit.
Proof.
  intros Hi Hs He. apply cos_radians_pos in Hi. split.
  - unfold sun_synchronous. rewrite solve_alt_inc by assumption.
    rewrite Np_sqrt_neg by (apply sqrt_argument_negative; assumption).
    reflexivity.
  - unfold sun_synchronous. rewrite solve_ecc_inc by assumption.
    rewrite Np_power_neg by (apply power_argument_negative; assumption).
    reflexivity.
Qed.

(** X7.  When the inclination is solved for, from an altitude above the
    centre of the Earth and an eccentricity other than -1, the predictor
    returned holds an inclination above 90 and at most 180 degrees: the
    orbit is retrograde. *)
Theorem sun_synchronous_solved_retrograde (alt_km ecc : R)
        (inc_deg : option R) (ltan_h : R) (date : option dt.date)
        (ta_deg : R) (today : dt.date) (pr : predictor) :
  sun_synchronous (Some alt_km) (Some ecc) inc_deg ltan_h date ta_deg today
  = Ok pr ->
  0 < R_E_KM + alt_km ->
  ecc <> -1 ->
  90 < _inc pr <= 180.
Proof.
  intros H Hs He. apply sun_synchronous_inv in H.
  destruct H as (sma & e & i & epoch & Hsolve & _ & He1 & ->).
  cbn [_inc].
  destruct (solve_alt_ecc_fields _ _ _ _ _ _ Hsolve) as [-> ->].
  rewrite solve_alt_ecc in Hsolve by assumption. bind_inv Hsolve.
  injection Hsolve as <-.
  apply Np_arccos_inv in Hstep. destruct Hstep as [Hx ->].
  split; [|apply degrees_acos_range].
  apply degrees_gt_90, acos_of_negative.
  assert (Hneg := arccos_argument_negative (R_E_KM + alt_km) ecc
                    (sq_neq_1 ecc He1 He)).
  lra.
Qed.

(** X17.  When the eccentricity is solved for, the predictor returned holds
    an eccentricity in [0, 1). *)
Theorem sun_synchronous_solved_eccentricity (alt_km inc_deg : R)
        (ltan_h : R) (date : option dt.date) (ta_deg : R) (today : dt.date)
        (pr : predictor) :
  sun_synchronous (Some alt_km) None (Some inc_deg) ltan_h date ta_deg today
  = Ok pr ->
  0 <= _ecc pr < 1.
Proof.
  intros H. apply sun_synchronous_solved_range in H.
  destruct H as [_ H]. apply H; [discriminate|reflexivity].
Qed.


End SunSynchronousArguments.

(* ------------------------------------------------------------------------- *)
(** ** The three closed forms invert one another *)

Lemma Rpower_7_2_2_7 (b : R) : 0 < b -> Rpower (Rpower b (7 / 2)) (2 / 7) = b.
Proof.
  intros Hb. rewrite Rpower_mult.
  replace (7 / 2 * (2 / 7)) with 1 by field.
  apply Rpower_1, Hb.
Qed.

Lemma degrees_radians (x : R) : Py.degrees (Py.radians x) = x.
Proof.
  unfold Py.radians, Py.degrees. assert (HPI := PI_RGT_0). field. lra.
Qed.

Lemma radians_range (inc_deg : R) :
  0 <= inc_deg <= 180 -> 0 <= Py.radians inc_deg <= PI.
Proof.
  intros H. assert (HPI := PI_RGT_0). unfold Py.radians. split.
  - apply Rmult_le_pos; lra.
  - replace PI with (180 * (PI / 180)) at 2 by field.
    apply Rmult_le_compat_r; lra.
Qed.

(** The arguments of the three closed forms, one in terms of another. *)
Lemma power_argument_of_arccos_argument (sma ecc : R) :
  ecc ^ 2 <> 1 ->
  - arccos_argument sma ecc * (3 * R_E_KM ^ 2 * J2 * sqrt MU_E)
  / (2 * OMEGA * (1 - ecc ^ 2) ^ 2)
  = Rpower sma (7 / 2).
Proof.
  intros He. unfold arccos_argument.
  assert (H1 := sqrt_MU_E_pos). assert (H2 := J2_pos).
  assert (H3 := R_E_KM_pos). assert (H4 := OMEGA_pos).
  field. repeat split; lra.
Qed.

Lemma sqrt_argument_of_arccos_argument (sma ecc : R) :
  -3 * R_E_KM ^ 2 * J2 * sqrt MU_E * arccos_argument sma ecc
  / (2 * OMEGA * Rpower sma (7 / 2))
  = (1 - ecc ^ 2) ^ 2.
Proof.
  unfold arccos_argument.
  assert (H1 := sqrt_MU_E_pos). assert (H2 := J2_pos).
  assert (H3 := R_E_KM_pos). assert (H4 := OMEGA_pos).
  assert (H5 := Rpower_pos sma (7 / 2)).
  field. repeat split; lra.
Qed.


Lemma arccos_argument_of_power_argument (ecc inc_deg b : R) :
  ecc ^ 2 <> 1 ->
  b = power_argument ecc inc_deg ->
  -2 * b * OMEGA * (1 - ecc ^ 2) ^ 2 / (3 * R_E_KM ^ 2 * J2 * sqrt MU_E)
  = cos (Py.radians inc_deg).
Proof.
  intros He ->. unfold power_argument.
  assert (H1 := sqrt_MU_E_pos). assert (H2 := J2_pos).
  assert (H3 := R_E_KM_pos). assert (H4 := OMEGA_pos).
  field. repeat split; lra.
Qed.

(** Inclination solved from altitude and eccentricity, then the altitude
    solved back from eccentricity and inclination. *)
Lemma solve_inclination_then_altitude (alt_km ecc : R) (inc_deg : option R)
      (sma e i : R) :
  sun_synchronous_solve (Some alt_km) (Some ecc) inc_deg = Ok (sma, e, i) ->
  0 < R_E_KM + alt_km -> ecc ^ 2 <> 1 ->
  sun_synchronous_solve None (Some ecc) (Some i) = Ok (sma, e, i).
Proof.
  intros H Hs He.
  destruct (solve_alt_ecc_fields _ _ _ _ _ _ H) as [-> ->].
  rewrite solve_alt_ecc in H by assumption. bind_inv H. injection H as <-.
  apply Np_arccos_inv in Hstep. destruct Hstep as [Hx ->].
  rewrite solve_ecc_inc by assumption.
  unfold power_argument. rewrite radians_degrees, cos_acos by assumption.
  rewrite power_argument_of_arccos_argument by assumption.
  rewrite Np_power_pos by apply Rpower_pos. cbn [bind].
  rewrite Rpower_7_2_2_7 by assumption. reflexivity.
Qed.

(** Inclination solved from altitude and eccentricity, then the
    eccentricity solved back from altitude and inclination. *)
Lemma solve_inclination_then_eccentricity (alt_km ecc : R)
      (inc_deg : option R) (sma e i : R) :
  sun_synchronous_solve (Some alt_km) (Some ecc) inc_deg = Ok (sma, e, i) ->
  0 < R_E_KM + alt_km -> 0 <= ecc <= 1 ->
  sun_synchronous_solve (Some alt_km) None (Some i) = Ok (sma, e, i).
Proof.
  intros H Hs He.
  destruct (solve_alt_ecc_fields _ _ _ _ _ _ H) as [-> ->].
  rewrite solve_alt_ecc in H by assumption. bind_inv H. injection H as <-.
  apply Np_arccos_inv in Hstep. destruct Hstep as [Hx ->].
  rewrite solve_alt_inc by assumption.
  unfold sqrt_argument. rewrite radians_degrees, cos_acos by assumption.
  rewrite sqrt_argument_of_arccos_argument.
  assert (He2 : 0 <= 1 - ecc ^ 2) by nra.
  rewrite Np_sqrt_ok by (apply pow2_ge_0). cbn [bind].
  rewrite sqrt_pow2 by assumption.
  replace (1 - (1 - ecc ^ 2)) with (ecc ^ 2) by ring.
  rewrite Np_sqrt_ok by (apply pow2_ge_0). cbn [bind].
  rewrite sqrt_pow2 by lra. reflexivity.
Qed.


(** Semi-major axis solved from eccentricity and inclination, then the
    inclination solved back from the altitude and the eccentricity. *)
Lemma solve_altitude_then_inclination (ecc inc_deg : R)
      (inc_deg' : option R) (sma e i : R) :
  sun_synchronous_solve None (Some ecc) (Some inc_deg) = Ok (sma, e, i) ->
  0 < sma -> ecc ^ 2 <> 1 -> 0 <= inc_deg <= 180 ->
  sun_synchronous_solve (Some (sma - R_E_KM)) (Some ecc) inc_deg'
  = Ok (sma, e, i).
Proof.
  intros H Hs He Hi.
  destruct (solve_ecc_inc_fields _ _ _ _ _ H) as [-> ->].
  rewrite solve_ecc_inc in H by assumption. bind_inv H. injection H as <-.
  match type of Hstep with
  | _ = Ok ?s =>
      assert (Hb : 0 < power_argument ecc inc_deg
                   /\ s = Rpower (power_argument ecc inc_deg) (2 / 7))
  end.
  { unfold Np.power in Hstep.
    destruct (Rlt_dec 0 (power_argument ecc inc_deg)) as [Hb|Hb].
    - injection Hstep as <-. split; [assumption|reflexivity].
    - destruct (Req_dec_T (power_argument ecc inc_deg) 0);
        [injection Hstep as <-; lra | discriminate Hstep]. }
  destruct Hb as [Hb ->].
  rewrite solve_alt_ecc
    by (replace (R_E_KM + (Rpower (power_argument ecc inc_deg) (2 / 7)
                          - R_E_KM))
          with (Rpower (power_argument ecc inc_deg) (2 / 7)) by ring;
        apply Rpower_pos).
  replace (R_E_KM + (Rpower (power_argument ecc inc_deg) (2 / 7) - R_E_KM))
    with (Rpower (power_argument ecc inc_deg) (2 / 7)) by ring.
  unfold arccos_argument. rewrite Rpower_2_7_7_2 by assumption.
  rewrite (arccos_argument_of_power_argument ecc inc_deg)
    by (assumption || reflexivity).
  rewrite Np_arccos_ok by (generalize (COS_bound (Py.radians inc_deg)); lra).
  cbn [bind].
  rewrite acos_cos by (apply radians_range; assumption).
  rewrite degrees_radians. reflexivity.
Qed.

Section ClosedFormsInvert.

Context {C : Collaborators}.

(** X8.  If the constructor, given an altitude above the centre of the Earth
    and an eccentricity other than -1, returns a predictor, then given that
    eccentricity and the inclination it solved it returns the same
    predictor: the semi-major axis solved from the two is the one the
    altitude gave (in exact arithmetic). *)
Theorem sun_synchronous_inclination_then_altitude (alt_km ecc : R)
        (inc_deg : option R) (ltan_h : R) (date : option dt.date)
        (ta_deg : R) (today : dt.date) (pr : predictor) :
  sun_synchronous (Some alt_km) (Some ecc) inc_deg ltan_h date ta_deg today
  = Ok pr ->
  0 < R_E_KM + alt_km ->
  ecc <> -1 ->
  sun_synchronous None (Some ecc) (Some (_inc pr)) ltan_h date ta_deg today
  = Ok pr.
Proof.
  intros H Hs He. rewrite <- H. apply sun_synchronous_of_solve.
  apply sun_synchronous_inv in H.
  destruct H as (sma & e & i & epoch & Hsolve & _ & He1 & ->). cbn [_inc].
  destruct (solve_alt_ecc_fields _ _ _ _ _ _ Hsolve) as [_ Hee]. subst e.
  rewrite Hsolve.
  eapply solve_inclination_then_altitude;
    [exact Hsolve | assumption | apply sq_neq_1; assumption].
Qed.


(** X11.  If the constructor, given an eccentricity other than -1 and an
    inclination in [0, 180] degrees, returns a predictor with a positive
    semi-major axis, then given the altitude of that semi-major axis and
    the eccentricity it returns the same predictor: the inclination solved
    from the two is the one that was given (in exact arithmetic). *)
Theorem sun_synchronous_altitude_then_inclination (ecc inc_deg : R)
        (inc_deg' : option R) (ltan_h : R) (date : option dt.date)
        (ta_deg : R) (today : dt.date) (pr : predictor) :
  sun_synchronous None (Some ecc) (Some inc_deg) ltan_h date ta_deg today
  = Ok pr ->
  0 < _sma pr ->
  ecc <> -1 ->
  0 <= inc_deg <= 180 ->
  sun_synchronous (Some (_sma pr - R_E_KM)) (Some ecc) inc_deg' ltan_h date
                  ta_deg today
  = Ok pr.
Proof.
  intros H Hs He Hi. rewrite <- H. apply sun_synchronous_of_solve.
  apply sun_synchronous_inv in H.
  destruct H as (sma & e & i & epoch & Hsolve & _ & He1 & ->).
  cbn [_sma] in *.
  destruct (solve_ecc_inc_fields _ _ _ _ _ Hsolve) as [Hee _]. subst e.
  rewrite Hsolve.
  eapply solve_altitude_then_inclination;
    [exact Hsolve | assumption | apply sq_neq_1; assumption | assumption].
Qed.

(** X12.  The true anomaly passed to the constructor is stored and has no
    other effect: a call that differs only in [ta_deg] succeeds as well and
    returns a predictor with the same sma, ecc, inc, raan, argp and epoch;
    the epoch is not adjusted. *)
Theorem sun_synchronous_true_anomaly_only (alt_km ecc inc_deg : option R)
        (ltan_h : R) (date : option dt.date) (ta_deg ta_deg' : R)
        (today : dt.date) (pr : predictor) :
  sun_synchronous alt_km ecc inc_deg ltan_h date ta_deg today = Ok pr ->
  _ta pr = ta_deg
  /\ sun_synchronous alt_km ecc inc_deg ltan_h date ta_deg' today
     = Ok (with_ta pr ta_deg').
Proof.
  intros H. split.
  - apply sun_synchronous_inv in H.
    destruct H as (sma & e & i & epoch & _ & _ & _ & ->). reflexivity.
  - eapply sun_synchronous_with_ta; [exact H | reflexivity].
Qed.

(** X13.  The epoch of a predictor returned by the constructor, built from
    the date and the four components (hour, minute, second, microsecond) of
    the local time, lies within the day of the date passed, or of the
    current date when none is passed. *)
Theorem sun_synchronous_epoch_on_date (alt_km ecc inc_deg : option R)
        (ltan_h : R) (date : option dt.date) (ta_deg : R) (today : dt.date)
        (pr : predictor) :
  sun_synchronous alt_km ecc inc_deg ltan_h date ta_deg today = Ok pr ->
  (dt.toordinal (date_used date today) * 86400000000
   <= dt.microseconds (_epoch pr)
   < (dt.toordinal (date_used date today) + 1) * 86400000000)%Z.
Proof.
  intros H. apply sun_synchronous_inv in H.
  destruct H as (sma & e & i & epoch & _ & Hepoch & _ & ->).
  cbn [_epoch]. fold (date_used date today) in Hepoch.
  destruct (float_to_hms ltan_h) as [[[h m] s] us].
  unfold dt.datetime_new in Hepoch.
  destruct (Z.leb_spec 0 h), (Z.ltb_spec h 24); cbn in Hepoch;
    try discriminate Hepoch.
  destruct (Z.leb_spec 0 m), (Z.ltb_spec m 60); cbn in Hepoch;
    try discriminate Hepoch.
  destruct (Z.leb_spec 0 s), (Z.ltb_spec s 60); cbn in Hepoch;
    try discriminate Hepoch.
  destruct (Z.leb_spec 0 us), (Z.ltb_spec us 1000000); cbn in Hepoch;
    try discriminate Hepoch.
  injection Hepoch as <-. cbn [dt.microseconds]. lia.
Qed.

End ClosedFormsInvert.

(* ------------------------------------------------------------------------- *)
(** ** What a constellation yields *)

Lemma yield_each_nth {A : Type} (body : nat -> R -> result A)
      (items : list R) (i : nat) (l : list A) (e : ending) :
  yield_each body i items = (l, e) ->
  forall k a, nth_error l k = Some a ->
              exists x, nth_error items k = Some x
                        /\ body (i + k)%nat x = Ok a.
Proof.
  revert i l e. induction items as [|x rest IH]; intros i l e H k a Hk.
  - cbn in H. injection H as <- _. destruct k; discriminate Hk.
  - cbn [yield_each] in H. destruct (body i x) as [a0|ex|what] eqn:Hb.
    + destruct (yield_each body (S i) rest) as [l' e'] eqn:Hrest.
      injection H as <- _. destruct k as [|k].
      * cbn in Hk. injection Hk as <-. exists x.
        rewrite Nat.add_0_r. split; [reflexivity|assumption].
      * cbn in Hk. destruct (IH _ _ _ Hrest k a Hk) as (y & Hy & Hby).
        exists y. replace (i + S k)%nat with (S i + k)%nat by lia.
        split; assumption.
    + injection H as <- _. destruct k; discriminate Hk.
    + injection H as <- _. destruct k; discriminate Hk.
Qed.

Lemma nth_error_linspace (start stop : R) (num : Z) (items : list R)
      (k : nat) (x : R) :
  Np.linspace start stop num = Ok items ->
  nth_error items k = Some x ->
  (k < Z.to_nat num)%nat
  /\ x = INR k * ((stop - start) / IZR num) + start.
Proof.
  unfold Np.linspace. destruct (num <? 0)%Z; [discriminate|].
  intros H Hk. injection H as <-.
  assert (Hlt : (k < Z.to_nat num)%nat).
  { assert (Hsome : nth_error
                      (map (fun i => INR i * ((stop - start) / IZR num)
                                     + start)
                           (seq 0 (Z.to_nat num))) k <> None)
      by (rewrite Hk; discriminate).
    apply nth_error_Some in Hsome.
    rewrite length_map, length_seq in Hsome. exact Hsome. }
  split; [assumption|].
  rewrite nth_error_map, nth_error_seq in Hk.
  destruct (Nat.ltb_spec k (Z.to_nat num)); [|lia].
  cbn in Hk. injection Hk as <-. reflexivity.
Qed.

(** A call that raises raises the same for every true anomaly. *)
Lemma sun_synchronous_raises_any_ta {C : Collaborators}
      (alt_km ecc inc_deg : option R) (ltan_h : R) (date : option dt.date)
      (ta_deg ta_deg' : R) (today : dt.date) (ex : exn) :
  sun_synchronous alt_km ecc inc_deg ltan_h date ta_deg today = Raise ex ->
  sun_synchronous alt_km ecc inc_deg ltan_h date ta_deg' today = Raise ex.
Proof.
  unfold sun_synchronous.
  destruct (except_FloatingPointError
              (sun_synchronous_solve alt_km ecc inc_deg))
    as [[[sma e] i]|err|what]; cbn [bind]; [|trivial|trivial].
  destruct (float_to_hms ltan_h) as [[[h m] s] us].
  destruct (dt.datetime_new _ h m s us) as [epoch|err|what]; cbn [bind];
    [|trivial|trivial].
  unfold __init__. destruct (Rle_dec 1 e); [trivial|discriminate].
Qed.

Section ConstellationYield.

Context {C : Collaborators}.

(** X14.  Asked for no satellite, the generator ends at once without
    raising, whatever the other arguments, also such as the constructor
    would refuse; asked for a negative number, it raises the ValueError of
    np.linspace before anything is yielded. *)
Theorem constellation_without_satellites (alt_km ecc inc_deg : option R)
        (ltan_h : R) (date : option dt.date) (clock : nat -> dt.date) :
  sun_sync_plane_constellation 0 alt_km ecc inc_deg ltan_h date clock
  = ([], Exhausted)
  /\ forall n : positive,
      exists msg : string,
        sun_sync_plane_constellation (Z.neg n) alt_km ecc inc_deg ltan_h
                                     date clock
        = ([], Raised (ValueError msg)).
Proof.
  split.
  - reflexivity.
  - intros n. unfold sun_sync_plane_constellation, Np.linspace.
    cbn [Z.ltb Z.compare]. eexists. reflexivity.
Qed.

(** X15.  When the constructor raises for the first satellite (true anomaly
    0, at the date the first resumption works with), a constellation of one
    or more satellites yields nothing and ends with that exception. *)
Theorem constellation_raises_at_first (num_satellites : Z)
        (alt_km ecc inc_deg : option R) (ltan_h : R) (date : option dt.date)
        (clock : nat -> dt.date) (ex : exn) :
  (1 <= num_satellites)%Z ->
  sun_synchronous alt_km ecc inc_deg ltan_h date 0 (clock 0%nat) = Raise ex ->
  sun_sync_plane_constellation num_satellites alt_km ecc inc_deg ltan_h date
                               clock
  = ([], Raised ex).
Proof.
  intros Hn H. unfold sun_sync_plane_constellation, Np.linspace.
  destruct (Z.ltb_spec num_satellites 0) as [Hneg|_]; [lia|].
  destruct (Z.to_nat num_satellites) as [|m] eqn:Hm; [lia|].
  cbn [seq map yield_each].
  rewrite (sun_synchronous_raises_any_ta _ _ _ _ _ _ _ _ _ H). reflexivity.
Qed.

(** X16.  Whatever the dates the calls work with, the k-th predictor a
    constellation of n satellites yields (k counted from 0) has k < n and
    the true anomaly k * (360 / n) degrees, which lies in [0, 360). *)
Theorem constellation_true_anomalies (num_satellites : Z)
        (alt_km ecc inc_deg : option R) (ltan_h : R) (date : option dt.date)
        (clock : nat -> dt.date) (sats : list predictor) (e : ending)
        (k : nat) (pr : predictor) :
  sun_sync_plane_constellation num_satellites alt_km ecc inc_deg ltan_h date
                               clock
  = (sats, e) ->
  nth_error sats k = Some pr ->
  (k < Z.to_nat num_satellites)%nat
  /\ _ta pr = INR k * (360 / IZR num_satellites)
  /\ 0 <= _ta pr < 360.
Proof.
  intros H Hk. unfold sun_sync_plane_constellation in H.
  destruct (Np.linspace 0 360 num_satellites) as [items|ex|what] eqn:Hlin.
  - destruct (yield_each_nth _ _ _ _ _ H k pr Hk) as (x & Hx & Hbody).
    destruct (nth_error_linspace _ _ _ _ _ _ Hlin Hx) as [Hlt ->].
    cbn [Nat.add] in Hbody. apply sun_synchronous_inv in Hbody.
    destruct Hbody as (sma & e0 & i & epoch & _ & _ & _ & ->). cbn [_ta].
    assert (Hkn : INR k < IZR num_satellites).
    { rewrite INR_IZR_INZ. apply IZR_lt. lia. }
    assert (Hk0 : 0 <= INR k) by apply pos_INR.
    assert (Hn : 0 < IZR num_satellites) by lra.
    assert (Hstep : 0 < 360 / IZR num_satellites)
      by (apply Rdiv_lt_0_compat; lra).
    split; [assumption|]. split; [lra|].
    replace (INR k * ((360 - 0) / IZR num_satellites) + 0)
      with (INR k * (360 / IZR num_satellites)) by lra.
    split.
    + apply Rmult_le_pos; lra.
    + replace 360 with (IZR num_satellites * (360 / IZR num_satellites)) at 2
        by (field; lra).
      apply Rmult_lt_compat_r; assumption.
  - injection H as <- _. destruct k; discriminate Hk.
  - injection H as <- _. destruct k; discriminate Hk.
Qed.

End ConstellationYield.

(* ------------------------------------------------------------------------- *)
(** ** Further instances *)

(** The orbit at 600 km, constructed from altitude and inclination, and from
    eccentricity and inclination. *)
Lemma leo_600_from_alt_inc (date : option dt.date) (ta_deg : R)
      (today : dt.date) :
  sun_synchronous (C := tracing) (Some 600) None (Some leo_600_inc_deg) 12
                  date ta_deg today
  = Ok (Predictor J2Predictor (R_E_KM + 600) 0 leo_600_inc_deg 0 0 ta_deg
          (noon (match date with None => today | Some d => d end))).
Proof.
  rewrite <- (leo_600_sun_synchronous None date ta_deg today).
  apply sun_synchronous_of_solve. rewrite leo_600_solve.
  apply (solve_inclination_then_eccentricity 600 0 None).
  - apply leo_600_solve.
  - unfold R_E_KM, wgs84.radiusearthkm. lra.
  - lra.
Qed.

Lemma leo_600_from_ecc_inc (date : option dt.date) (ta_deg : R)
      (today : dt.date) :
  sun_synchronous (C := tracing) None (Some 0) (Some leo_600_inc_deg) 12
                  date ta_deg today
  = Ok (Predictor J2Predictor (R_E_KM + 600) 0 leo_600_inc_deg 0 0 ta_deg
          (noon (match date with None => today | Some d => d end))).
Proof.
  rewrite <- (leo_600_sun_synchronous None date ta_deg today).
  apply sun_synchronous_of_solve. rewrite leo_600_solve.
  apply (solve_inclination_then_altitude 600 0 None).
  - apply leo_600_solve.
  - unfold R_E_KM, wgs84.radiusearthkm. lra.
  - lra.
Qed.

Lemma leo_600_inc_deg_range : 0 <= leo_600_inc_deg <= 180.
Proof. apply degrees_acos_range. Qed.

Lemma R_E_KM_600_pos : 0 < R_E_KM + 600.
Proof. unfold R_E_KM, wgs84.radiusearthkm. lra. Qed.

(** Two satellites at 600 km. *)
Lemma leo_600_pair :
  sun_sync_plane_constellation (C := tracing) 2 (Some 600) (Some 0) None 12
                               (Some new_year_2020) (fun _ => new_year_2020)
  = ([with_ta leo_600 (INR 0 * ((360 - 0) / 2) + 0);
      with_ta leo_600 (INR 1 * ((360 - 0) / 2) + 0)], Exhausted).
Proof.
  unfold sun_sync_plane_constellation, Np.linspace.
  change (Z.to_nat 2) with 2%nat.
  cbn [Z.ltb Z.compare seq map yield_each].
  rewrite !leo_600_sun_synchronous. reflexivity.
Qed.

(** An equatorial request at 600 km raises InvalidOrbitError. *)
Lemma equatorial_600_raises (date : option dt.date) (ta_deg : R)
      (today : dt.date) :
  sun_synchronous (C := tracing) (Some 600) None (Some 0) 12 date ta_deg today
  = Raise invalid_orbit.
Proof.
  unfold sun_synchronous.
  rewrite (solve_domain_violation _ _ _ equatorial_600_violation).
  reflexivity.
Qed.

(** An equatorial orbit is refused at 600 km and for a circular orbit. *)
Lemma sun_synchronous_prograde_refused_equatorial :
  sun_synchronous (C := tracing) (Some 600) None (Some 0) 12 None 0
                  new_year_2020
  = Raise invalid_orbit
  /\ sun_synchronous (C := tracing) None (Some 0) (Some 0) 12 None 0
                     new_year_2020
     = Raise invalid_orbit.
Proof.
  apply (sun_synchronous_prograde_refused (C := tracing) 600 0 0 12 None 0
           new_year_2020).
  - lra.
  - exact R_E_KM_600_pos.
  - lra.
Defined.

Lemma sun_synchronous_solved_retrograde_at_600 : 90 < _inc leo_600 <= 180.
Proof.
  apply (sun_synchronous_solved_retrograde (C := tracing) 600 0 None 12
           (Some new_year_2020) 0 new_year_2020 leo_600).
  - apply leo_600_sun_synchronous.
  - exact R_E_KM_600_pos.
  - lra.
Defined.

Lemma sun_synchronous_inclination_then_altitude_at_600 :
  sun_synchronous (C := tracing) None (Some 0) (Some (_inc leo_600)) 12
                  (Some new_year_2020) 0 new_year_2020
  = Ok leo_600.
Proof.
  apply (sun_synchronous_inclination_then_altitude (C := tracing) 600 0 None
           12 (Some new_year_2020) 0 new_year_2020 leo_600).
  - apply leo_600_sun_synchronous.
  - exact R_E_KM_600_pos.
  - lra.
Defined.


Lemma sun_synchronous_altitude_then_inclination_at_600 :
  sun_synchronous (C := tracing) (Some (_sma leo_600 - R_E_KM)) (Some 0) None
                  12 (Some new_year_2020) 0 new_year_2020
  = Ok leo_600.
Proof.
  apply (sun_synchronous_altitude_then_inclination (C := tracing) 0
           leo_600_inc_deg None 12 (Some new_year_2020) 0 new_year_2020
           leo_600).
  - apply leo_600_from_ecc_inc.
  - exact R_E_KM_600_pos.
  - lra.
  - exact leo_600_inc_deg_range.
Defined.

Lemma sun_synchronous_true_anomaly_only_at_600 :
  _ta leo_600 = 0
  /\ sun_synchronous (C := tracing) (Some 600) (Some 0) None 12
                     (Some new_year_2020) 90 new_year_2020
     = Ok (with_ta leo_600 90).
Proof.
  apply (sun_synchronous_true_anomaly_only (C := tracing) (Some 600) (Some 0)
           None 12 (Some new_year_2020) 0 90 new_year_2020 leo_600).
  apply leo_600_sun_synchronous.
Defined.

Lemma sun_synchronous_epoch_on_date_at_600 :
  (dt.toordinal (date_used (Some new_year_2020) new_year_2020) * 86400000000
   <= dt.microseconds (_epoch leo_600)
   < (dt.toordinal (date_used (Some new_year_2020) new_year_2020) + 1)
     * 86400000000)%Z.
Proof.
  apply (sun_synchronous_epoch_on_date (C := tracing) (Some 600) (Some 0) None
           12 (Some new_year_2020) 0 new_year_2020 leo_600).
  apply leo_600_sun_synchronous.
Defined.

Lemma constellation_raises_at_first_equatorial :
  sun_sync_plane_constellation (C := tracing) 4 (Some 600) None (Some 0) 12
                               None (fun _ => new_year_2020)
  = ([], Raised invalid_orbit).
Proof.
  apply (constellation_raises_at_first (C := tracing) 4 (Some 600) None
           (Some 0) 12 None (fun _ => new_year_2020) invalid_orbit).
  - lia.
  - apply equatorial_600_raises.
Defined.

Lemma constellation_true_anomalies_of_pair :
  (1 < Z.to_nat 2)%nat
  /\ _ta (with_ta leo_600 (INR 1 * ((360 - 0) / 2) + 0)) = INR 1 * (360 / IZR 2)
  /\ 0 <= _ta (with_ta leo_600 (INR 1 * ((360 - 0) / 2) + 0)) < 360.
Proof.
  apply (constellation_true_anomalies (C := tracing) 2 (Some 600) (Some 0)
           None 12 (Some new_year_2020) (fun _ => new_year_2020)
           _ Exhausted 1 _ leo_600_pair).
  reflexivity.
Defined.

Lemma sun_synchronous_solved_eccentricity_at_600 : 0 <= _ecc leo_600 < 1.
Proof.
  apply (sun_synchronous_solved_eccentricity (C := tracing) 600
           leo_600_inc_deg 12 (Some new_year_2020) 0 new_year_2020 leo_600).
  apply leo_600_from_alt_inc.
Defined.


(* ------------------------------------------------------------------------- *)
(** ** When the Sun-synchronous constructor returns *)

Lemma datetime_new_ok (d : dt.date) (h m s us : Z) :
  time_of_day_ok (h, m, s, us) = true ->
  exists epoch, dt.datetime_new d h m s us = Ok epoch.
Proof.
  unfold time_of_day_ok, dt.datetime_new. intros H.
  apply andb_prop in H. destruct H as [H Hus].
  apply andb_prop in H. destruct H as [H Hs].
  apply andb_prop in H. destruct H as [Hh Hm].
  rewrite Hh, Hm, Hs, Hus. cbn [negb]. eexists. reflexivity.
Qed.

Lemma datetime_new_raises (d : dt.date) (h m s us : Z) :
  time_of_day_ok (h, m, s, us) = false ->
  exists msg, dt.datetime_new d h m s us = Raise (ValueError msg).
Proof.
  unfold time_of_day_ok, dt.datetime_new. intros H.
  destruct ((0 <=? h)%Z && (h <? 24)%Z); cbn [negb];
    [|eexists; reflexivity].
  destruct ((0 <=? m)%Z && (m <? 60)%Z); cbn [negb];
    [|eexists; reflexivity].
  destruct ((0 <=? s)%Z && (s <? 60)%Z); cbn [negb];
    [|eexists; reflexivity].
  destruct ((0 <=? us)%Z && (us <? 1000000)%Z); cbn [negb];
    [discriminate H|eexists; reflexivity].
Qed.

(** A solved orbit with ecc < 1 and a valid time of day is returned. *)
Lemma sun_synchronous_complete {C : Collaborators}
      (alt_km ecc inc_deg : option R) (ltan_h : R) (date : option dt.date)
      (ta_deg : R) (today : dt.date) (sma e i : R) :
  sun_synchronous_solve alt_km ecc inc_deg = Ok (sma, e, i) ->
  time_of_day_ok (float_to_hms ltan_h) = true ->
  e < 1 ->
  exists epoch,
    sun_synchronous alt_km ecc inc_deg ltan_h date ta_deg today
    = Ok (Predictor J2Predictor sma e i (raan_from_ltan epoch ltan_h) 0
                    ta_deg epoch).
Proof.
  intros Hsolve Ht He. unfold sun_synchronous. rewrite Hsolve.
  cbn [except_FloatingPointError bind].
  destruct (float_to_hms ltan_h) as [[[h m] s] us].
  destruct (datetime_new_ok
              (match date with None => today | Some d => d end) h m s us Ht)
    as [epoch Hepoch].
  rewrite Hepoch. cbn [bind]. exists epoch. apply init_returns, He.
Qed.

Lemma arccos_argument_nonpos (sma ecc : R) : arccos_argument sma ecc <= 0.
Proof.
  destruct (Req_dec_T (ecc ^ 2) 1) as [He|He].
  - unfold arccos_argument. rewrite He.
    replace (-2 * Rpower sma (7 / 2) * OMEGA * (1 - 1) ^ 2) with 0 by ring.
    unfold Rdiv. rewrite Rmult_0_l. lra.
  - apply Rlt_le, arccos_argument_negative, He.
Qed.

Lemma power_argument_sign (ecc inc_deg : R) :
  ecc ^ 2 <> 1 ->
  (0 < power_argument ecc inc_deg <-> cos (Py.radians inc_deg) < 0).
Proof.
  intros He. unfold power_argument.
  assert (HK := gravity_factor_pos). assert (HO := OMEGA_pos).
  assert (H2 := sq_factor_pos ecc He).
  assert (HD : 0 < 2 * OMEGA * (1 - ecc ^ 2) ^ 2)
    by (apply Rmult_lt_0_compat; lra).
  split; intros H.
  - destruct (Rlt_dec (cos (Py.radians inc_deg)) 0) as [|Hc]; [assumption|].
    exfalso.
    assert (Hn : - cos (Py.radians inc_deg)
                 * (3 * R_E_KM ^ 2 * J2 * sqrt MU_E) <= 0) by nra.
    assert (Hi : 0 < / (2 * OMEGA * (1 - ecc ^ 2) ^ 2))
      by (apply Rinv_0_lt_compat; assumption).
    unfold Rdiv in H. nra.
  - apply Rdiv_lt_0_compat; [nra|assumption].
Qed.

Section SunSynchronousFeasible.

Context {C : Collaborators}.

(** X19.  Given an altitude above the centre of the Earth, an eccentricity
    below 1 and a local time that gives a time of day in all four
    components (hour, minute, second, microsecond), the constructor returns
    a predictor exactly when the arccos argument
    -2 sma^(7/2) OMEGA (1 - ecc^2)^2 / (3 R_E^2 J2 sqrt(mu)) is at least
    -1. *)
Theorem sun_synchronous_inclination_feasible (alt_km ecc : R)
        (inc_deg : option R) (ltan_h : R) (date : option dt.date)
        (ta_deg : R) (today : dt.date) :
  time_of_day_ok (float_to_hms ltan_h) = true ->
  0 < R_E_KM + alt_km ->
  ecc < 1 ->
  ((exists pr, sun_synchronous (Some alt_km) (Some ecc) inc_deg ltan_h date
                               ta_deg today = Ok pr)
   <-> -1 <= arccos_argument (R_E_KM + alt_km) ecc).
Proof.
  intros Ht Hs He. split.
  - intros [pr H]. apply sun_synchronous_inv in H.
    destruct H as (sma & e & i & epoch & Hsolve & _).
    rewrite solve_alt_ecc in Hsolve by assumption. bind_inv Hsolve.
    apply Np_arccos_inv in Hstep. lra.
  - intros Hx.
    assert (Hsolve : sun_synchronous_solve (Some alt_km) (Some ecc) inc_deg
                     = Ok (R_E_KM + alt_km, ecc,
                           Py.degrees
                             (acos (arccos_argument (R_E_KM + alt_km) ecc)))).
    { rewrite solve_alt_ecc by assumption.
      rewrite Np_arccos_ok
        by (generalize (arccos_argument_nonpos (R_E_KM + alt_km) ecc); lra).
      reflexivity. }
    destruct (sun_synchronous_complete _ _ _ ltan_h date ta_deg today _ _ _
                Hsolve Ht He) as [epoch H].
    eexists. exact H.
Qed.

(** X21.  Given an eccentricity strictly between -1 and 1, an inclination
    whose cosine is not zero (the orbit is not polar) and a local time that
    gives a time of day in all four components, the constructor returns a
    predictor with a positive semi-major axis exactly when the cosine of
    the inclination is negative.  In exact arithmetic the equivalence holds
    for a polar orbit as well; it is stated away from it because there the
    cosine the program computes is a rounding residue of either sign. *)
Theorem sun_synchronous_altitude_feasible (ecc inc_deg : R)
        (ltan_h : R) (date : option dt.date) (ta_deg : R) (today : dt.date) :
  time_of_day_ok (float_to_hms ltan_h) = true ->
  -1 < ecc < 1 ->
  cos (Py.radians inc_deg) <> 0 ->
  ((exists pr, sun_synchronous None (Some ecc) (Some inc_deg) ltan_h date
                               ta_deg today = Ok pr
               /\ 0 < _sma pr)
   <-> cos (Py.radians inc_deg) < 0).
Proof.
  intros Ht He _. assert (He2 : ecc ^ 2 <> 1) by (apply sq_neq_1; lra).
  split.
  - intros [pr [H Hsma]]. apply sun_synchronous_inv in H.
    destruct H as (sma & e & i & epoch & Hsolve & _ & _ & ->).
    cbn [_sma] in Hsma.
    rewrite solve_ecc_inc in Hsolve by assumption. bind_inv Hsolve.
    injection Hsolve as <- _ _.
    apply power_argument_sign with (ecc := ecc); [assumption|].
    unfold Np.power in Hstep.
    destruct (Rlt_dec 0 (power_argument ecc inc_deg)); [assumption|].
    destruct (Req_dec_T (power_argument ecc inc_deg) 0);
      [injection Hstep as <-; lra | discriminate Hstep].
  - intros Hc. apply (power_argument_sign ecc inc_deg He2) in Hc.
    assert (Hsolve : sun_synchronous_solve None (Some ecc) (Some inc_deg)
                     = Ok (Rpower (power_argument ecc inc_deg) (2 / 7), ecc,
                           inc_deg)).
    { rewrite solve_ecc_inc by assumption.
      rewrite Np_power_pos by assumption. reflexivity. }
    assert (He1 : ecc < 1) by lra.
    destruct (sun_synchronous_complete _ _ _ ltan_h date ta_deg today _ _ _
                Hsolve Ht He1) as [epoch H].
    eexists. split; [exact H|]. cbn [_sma]. apply Rpower_pos.
Qed.

(** X22.  When the try block succeeds but the local time does not give a
    time of day, the constructor raises the ValueError of the datetime
    constructor, whatever the solved elements; no predictor is returned. *)
Theorem sun_synchronous_invalid_time (alt_km ecc inc_deg : option R)
        (ltan_h : R) (date : option dt.date) (ta_deg : R) (today : dt.date)
        (sma e i : R) :
  sun_synchronous_solve alt_km ecc inc_deg = Ok (sma, e, i) ->
  time_of_day_ok (float_to_hms ltan_h) = false ->
  exists msg,
    sun_synchronous alt_km ecc inc_deg ltan_h date ta_deg today
    = Raise (ValueError msg).
Proof.
  intros Hsolve Ht. unfold sun_synchronous. rewrite Hsolve.
  cbn [except_FloatingPointError bind].
  destruct (float_to_hms ltan_h) as [[[h m] s] us].
  destruct (datetime_new_raises
              (match date with None => today | Some d => d end) h m s us Ht)
    as [msg Hmsg].
  rewrite Hmsg. exists msg. reflexivity.
Qed.

End SunSynchronousFeasible.

(* ------------------------------------------------------------------------- *)
(** ** Propagating a Sun-synchronous predictor *)

Section SunSynchronousPropagation.

Context {C : Collaborators}.

(** X23.  For every predictor returned by the Sun-synchronous constructor
    with sma > 0 and ecc > -1, propagation to any epoch succeeds and hands
    to the state conversion the stored RAAN advanced by exactly
    OMEGA * delta_t: the node follows the mean Sun.  The argument of
    perigee starts from 0. *)
Theorem sun_synchronous_node_follows_sun (alt_km ecc inc_deg : option R)
        (ltan_h : R) (date : option dt.date) (ta_deg : R) (today : dt.date)
        (pr : predictor) (when_utc : dt.datetime) :
  sun_synchronous alt_km ecc inc_deg ltan_h date ta_deg today = Ok pr ->
  0 < _sma pr ->
  -1 < _ecc pr ->
  let n := Spec.mean_motion (_sma pr) in
  let p := Spec.semi_latus_rectum (_sma pr) (_ecc pr) in
  let inc := Py.radians (_inc pr) in
  let delta_t := dt.total_seconds_between when_utc (_epoch pr) in
  fst (_propagate_eci when_utc pr)
  = Ok (coe2rv MU_E p (_ecc pr) inc
          (Py.radians (_raan pr) + OMEGA * delta_t)
          (Py.radians 0 + Spec.argp_rate n p inc * delta_t)
          (M_to_ta (ta_to_M (Py.radians ta_deg) (_ecc pr)
                    + (n + Spec.M0_dot n p inc (_ecc pr)) * delta_t)
                   (_ecc pr))).
Proof.
  intros H Hs He n p inc delta_t. apply sun_synchronous_inv in H.
  destruct H as (sma & e & i & epoch & Hsolve & _ & He1 & ->).
  cbn [_sma _ecc _inc _raan _epoch] in *.
  assert (Hrate : Spec.nodal_regression_rate sma e (Py.radians i) = OMEGA).
  { apply sun_synchronism_rate; [assumption | apply sq_neq_1; lra |].
    eapply solve_sun_synchronism; [eassumption | assumption | lra]. }
  unfold _propagate_eci. cbn [class_of].
  unfold J2Predictor_propagate_eci, mbind, getattr, call.
  cbn [fst _sma _ecc _inc _raan _argp _ta _epoch].
  fold (Spec.semi_latus_rectum sma e).
  rewrite (pkepler_ok _ _ _ _ _ _ _ Hs (conj He He1)).
  fold (Spec.nodal_regression_rate sma e (Py.radians i)).
  rewrite Hrate. reflexivity.
Qed.

End SunSynchronousPropagation.

(* ------------------------------------------------------------------------- *)
(** ** Instances, continued *)

Lemma sun_synchronous_inclination_feasible_at_600 :
  (exists pr, sun_synchronous (C := tracing) (Some 600) (Some 0) None 12 None
                              0 new_year_2020 = Ok pr)
  <-> -1 <= arccos_argument (R_E_KM + 600) 0.
Proof.
  apply (sun_synchronous_inclination_feasible (C := tracing) 600 0 None 12
           None 0 new_year_2020).
  - reflexivity.
  - exact R_E_KM_600_pos.
  - lra.
Defined.

(** The cosine of the inclination solved at 600 km is the arccos
    argument. *)
Lemma leo_600_cos_inclination :
  cos (Py.radians leo_600_inc_deg) = arccos_argument (R_E_KM + 600) 0.
Proof.
  unfold leo_600_inc_deg. rewrite radians_degrees.
  apply cos_acos. generalize leo_600_arccos_argument. lra.
Qed.

Lemma keplerian_propagate_outcome_at_0 :
  exists e : exn,
    fst (KeplerianPredictor_propagate_eci (C := tracing) one_minute_past_noon
                                          sat_0)
    = Raise e
    /\ (_sma sat_0 = 0 -> e = ZeroDivisionError).
Proof.
  apply (keplerian_propagate_outcome (C := tracing) sat_0
                                     one_minute_past_noon).
  - cbn [_ecc sat_0]. lra.
  - cbn [_sma sat_0]. lra.
Defined.

Lemma j2_propagate_outcome_at_0 :
  exists e : exn,
    fst (J2Predictor_propagate_eci (C := tracing) one_minute_past_noon
                                   j2_sat_0)
    = Raise e
    /\ (_sma j2_sat_0 = 0 -> e = ZeroDivisionError).
Proof.
  apply (j2_propagate_outcome (C := tracing) j2_sat_0 one_minute_past_noon).
  cbn [_sma j2_sat_0]. lra.
Defined.

Lemma sun_synchronous_altitude_feasible_circular :
  (exists pr, sun_synchronous (C := tracing) None (Some 0)
                              (Some leo_600_inc_deg) 12 None 0 new_year_2020
              = Ok pr
              /\ 0 < _sma pr)
  <-> cos (Py.radians leo_600_inc_deg) < 0.
Proof.
  apply (sun_synchronous_altitude_feasible (C := tracing) 0 leo_600_inc_deg
           12 None 0 new_year_2020).
  - reflexivity.
  - lra.
  - rewrite leo_600_cos_inclination.
    generalize leo_600_arccos_argument. lra.
Defined.

Lemma sun_synchronous_invalid_time_24h :
  exists msg,
    sun_synchronous (C := tracing_24h) (Some 600) (Some 0) None 24 None 0
                    new_year_2020
    = Raise (ValueError msg).
Proof.
  apply (sun_synchronous_invalid_time (C := tracing_24h) (Some 600) (Some 0)
           None 24 None 0 new_year_2020 (R_E_KM + 600) 0 leo_600_inc_deg).
  - apply leo_600_solve.
  - reflexivity.
Defined.

Lemma sun_synchronous_node_follows_sun_at_600 :
  let n := Spec.mean_motion (R_E_KM + 600) in
  let p := Spec.semi_latus_rectum (R_E_KM + 600) 0 in
  let inc := Py.radians leo_600_inc_deg in
  let delta_t :=
    dt.total_seconds_between one_minute_past_noon (noon new_year_2020) in
  fst (_propagate_eci (C := tracing) one_minute_past_noon leo_600)
  = Ok ((p, 0, inc),
        (Py.radians 0 + OMEGA * delta_t,
         Py.radians 0 + Spec.argp_rate n p inc * delta_t,
         Py.radians 0 + (n + Spec.M0_dot n p inc 0) * delta_t)).
Proof.
  apply (sun_synchronous_node_follows_sun (C := tracing) (Some 600) (Some 0)
           None 12 (Some new_year_2020) 0 new_year_2020 leo_600
           one_minute_past_noon).
  - apply leo_600_sun_synchronous.
  - exact R_E_KM_600_pos.
  - cbn [_ecc leo_600]. lra.
Defined.
